(** * Access-key extraction ([extrair_chaves_final.py]): model and properties

    The development embeds the key-discovery pipeline of
    [extrair_chaves_final.py]: the digit normaliser [limpar_chave], the
    structural validator [validar_chave_nfe] and the scanner/aggregator
    [encontrar_chaves_acesso].  A Python [str] is a sequence of Unicode
    code points; the regular expressions are run by a backtracking matcher
    that follows CPython's [sre] engine on the opcodes these patterns
    compile to. *)

From Stdlib Require Import List Bool Arith NArith ZArith Lia String Ascii ListSet.
From Stdlib Require Import DecimalString.
Import ListNotations.

(** ** Python strings *)

(** A code point. *)
Definition char := N.

(** A Python [str]. *)
Definition str := list char.

Definition str_eq_dec : forall a b : str, {a = b} + {a <> b} :=
  list_eq_dec N.eq_dec.

(** An ASCII literal of the source, as a [str]. *)
Definition py (s : string) : str := map N_of_ascii (list_ascii_of_string s).

(** [s[a:b]] for [0 <= a <= b]: the bounds are clamped to the string. *)
Definition slice (s : str) (a b : nat) : str := firstn (b - a) (skipn a s).

(** [s.startswith(p)]. *)
Fixpoint startswith (s p : str) : bool :=
  match p, s with
  | [], _ => true
  | _ :: _, [] => false
  | a :: p', b :: s' => N.eqb a b && startswith s' p'
  end.

(** [len(set(s))]: the number of distinct characters of [s]. *)
Definition len_set (s : str) : nat := List.length (nodup N.eq_dec s).

(** ** Unicode character classes

    The classes that [re] and [int] consult, as CPython 3.11 (Unicode
    14.0.0) tabulates them. *)

Module Unicode.
Local Open Scope N_scope.

(** The code points whose decimal value is zero.  Each starts a run of ten
    consecutive code points with the decimal values 0 to 9; together the
    runs are the category Nd. *)
Definition nd_zeros : list N :=
  [
   48; 1632; 1776; 1984; 2406; 2534; 2662; 2790; 2918; 3046; 3174; 3302;
   3430; 3558; 3664; 3792; 3872; 4160; 4240; 6112; 6160; 6470; 6608; 6784;
   6800; 6992; 7088; 7232; 7248; 42528; 43216; 43264; 43472; 43504; 43600;
   44016; 65296; 66720; 68912; 69734; 69872; 69942; 70096; 70384; 70736;
   70864; 71248; 71360; 71472; 71904; 72016; 72784; 73040; 73120; 92768;
   92864; 93008; 120782; 120792; 120802; 120812; 120822; 123200; 123632;
   125264; 130032
  ].

(** [Py_UNICODE_TODECIMAL]: the decimal value of a code point, if any. *)
Definition todecimal (c : char) : option N :=
  match find (fun z => (z <=? c) && (c <=? z + 9)) nd_zeros with
  | Some z => Some (c - z)
  | None => None
  end.

(** [Py_UNICODE_ISDECIMAL]; what [\d] matches in a [str] pattern. *)
Definition isdecimal (c : char) : bool :=
  match todecimal c with Some _ => true | None => false end.

Definition in_ranges (tbl : list (N * N)) (c : char) : bool :=
  existsb (fun r => (fst r <=? c) && (c <=? snd r)) tbl.

(** [Py_UNICODE_ISSPACE]; what [\s] matches in a [str] pattern. *)
Definition space_ranges : list (N * N) :=
  [
   (9, 13); (28, 32); (133, 133); (160, 160); (5760, 5760); (8192, 8202);
   (8232, 8233); (8239, 8239); (8287, 8287); (12288, 12288)
  ].

Definition isspace (c : char) : bool := in_ranges space_ranges c.

(** [Py_UNICODE_ISALNUM]: alphabetic, decimal, digit or numeric. *)
Definition alnum_ranges : list (N * N) :=
  [
   (48, 57); (65, 90); (97, 122); (170, 170); (178, 179); (181, 181);
   (185, 186); (188, 190); (192, 214); (216, 246); (248, 705); (710, 721);
   (736, 740); (748, 748); (750, 750); (880, 884); (886, 887); (890, 893);
   (895, 895); (902, 902); (904, 906); (908, 908); (910, 929); (931, 1013);
   (1015, 1153); (1162, 1327); (1329, 1366); (1369, 1369); (1376, 1416);
   (1488, 1514); (1519, 1522); (1568, 1610); (1632, 1641); (1646, 1647);
   (1649, 1747); (1749, 1749); (1765, 1766); (1774, 1788); (1791, 1791);
   (1808, 1808); (1810, 1839); (1869, 1957); (1969, 1969); (1984, 2026);
   (2036, 2037); (2042, 2042); (2048, 2069); (2074, 2074); (2084, 2084);
   (2088, 2088); (2112, 2136); (2144, 2154); (2160, 2183); (2185, 2190);
   (2208, 2249); (2308, 2361); (2365, 2365); (2384, 2384); (2392, 2401);
   (2406, 2415); (2417, 2432); (2437, 2444); (2447, 2448); (2451, 2472);
   (2474, 2480); (2482, 2482); (2486, 2489); (2493, 2493); (2510, 2510);
   (2524, 2525); (2527, 2529); (2534, 2545); (2548, 2553); (2556, 2556);
   (2565, 2570); (2575, 2576); (2579, 2600); (2602, 2608); (2610, 2611);
   (2613, 2614); (2616, 2617); (2649, 2652); (2654, 2654); (2662, 2671);
   (2674, 2676); (2693, 2701); (2703, 2705); (2707, 2728); (2730, 2736);
   (2738, 2739); (2741, 2745); (2749, 2749); (2768, 2768); (2784, 2785);
   (2790, 2799); (2809, 2809); (2821, 2828); (2831, 2832); (2835, 2856);
   (2858, 2864); (2866, 2867); (2869, 2873); (2877, 2877); (2908, 2909);
   (2911, 2913); (2918, 2927); (2929, 2935); (2947, 2947); (2949, 2954);
   (2958, 2960); (2962, 2965); (2969, 2970); (2972, 2972); (2974, 2975);
   (2979, 2980); (2984, 2986); (2990, 3001); (3024, 3024); (3046, 3058);
   (3077, 3084); (3086, 3088); (3090, 3112); (3114, 3129); (3133, 3133);
   (3160, 3162); (3165, 3165); (3168, 3169); (3174, 3183); (3192, 3198);
   (3200, 3200); (3205, 3212); (3214, 3216); (3218, 3240); (3242, 3251);
   (3253, 3257); (3261, 3261); (3293, 3294); (3296, 3297); (3302, 3311);
   (3313, 3314); (3332, 3340); (3342, 3344); (3346, 3386); (3389, 3389);
   (3406, 3406); (3412, 3414); (3416, 3425); (3430, 3448); (3450, 3455);
   (3461, 3478); (3482, 3505); (3507, 3515); (3517, 3517); (3520, 3526);
   (3558, 3567); (3585, 3632); (3634, 3635); (3648, 3654); (3664, 3673);
   (3713, 3714); (3716, 3716); (3718, 3722); (3724, 3747); (3749, 3749);
   (3751, 3760); (3762, 3763); (3773, 3773); (3776, 3780); (3782, 3782);
   (3792, 3801); (3804, 3807); (3840, 3840); (3872, 3891); (3904, 3911);
   (3913, 3948); (3976, 3980); (4096, 4138); (4159, 4169); (4176, 4181);
   (4186, 4189); (4193, 4193); (4197, 4198); (4206, 4208); (4213, 4225);
   (4238, 4238); (4240, 4249); (4256, 4293); (4295, 4295); (4301, 4301);
   (4304, 4346); (4348, 4680); (4682, 4685); (4688, 4694); (4696, 4696);
   (4698, 4701); (4704, 4744); (4746, 4749); (4752, 4784); (4786, 4789);
   (4792, 4798); (4800, 4800); (4802, 4805); (4808, 4822); (4824, 4880);
   (4882, 4885); (4888, 4954); (4969, 4988); (4992, 5007); (5024, 5109);
   (5112, 5117); (5121, 5740); (5743, 5759); (5761, 5786); (5792, 5866);
   (5870, 5880); (5888, 5905); (5919, 5937); (5952, 5969); (5984, 5996);
   (5998, 6000); (6016, 6067); (6103, 6103); (6108, 6108); (6112, 6121);
   (6128, 6137); (6160, 6169); (6176, 6264); (6272, 6276); (6279, 6312);
   (6314, 6314); (6320, 6389); (6400, 6430); (6470, 6509); (6512, 6516);
   (6528, 6571); (6576, 6601); (6608, 6618); (6656, 6678); (6688, 6740);
   (6784, 6793); (6800, 6809); (6823, 6823); (6917, 6963); (6981, 6988);
   (6992, 7001); (7043, 7072); (7086, 7141); (7168, 7203); (7232, 7241);
   (7245, 7293); (7296, 7304); (7312, 7354); (7357, 7359); (7401, 7404);
   (7406, 7411); (7413, 7414); (7418, 7418); (7424, 7615); (7680, 7957);
   (7960, 7965); (7968, 8005); (8008, 8013); (8016, 8023); (8025, 8025);
   (8027, 8027); (8029, 8029); (8031, 8061); (8064, 8116); (8118, 8124);
   (8126, 8126); (8130, 8132); (8134, 8140); (8144, 8147); (8150, 8155);
   (8160, 8172); (8178, 8180); (8182, 8188); (8304, 8305); (8308, 8313);
   (8319, 8329); (8336, 8348); (8450, 8450); (8455, 8455); (8458, 8467);
   (8469, 8469); (8473, 8477); (8484, 8484); (8486, 8486); (8488, 8488);
   (8490, 8493); (8495, 8505); (8508, 8511); (8517, 8521); (8526, 8526);
   (8528, 8585); (9312, 9371); (9450, 9471); (10102, 10131);
   (11264, 11492); (11499, 11502); (11506, 11507); (11517, 11517);
   (11520, 11557); (11559, 11559); (11565, 11565); (11568, 11623);
   (11631, 11631); (11648, 11670); (11680, 11686); (11688, 11694);
   (11696, 11702); (11704, 11710); (11712, 11718); (11720, 11726);
   (11728, 11734); (11736, 11742); (11823, 11823); (12293, 12295);
   (12321, 12329); (12337, 12341); (12344, 12348); (12353, 12438);
   (12445, 12447); (12449, 12538); (12540, 12543); (12549, 12591);
   (12593, 12686); (12690, 12693); (12704, 12735); (12784, 12799);
   (12832, 12841); (12872, 12879); (12881, 12895); (12928, 12937);
   (12977, 12991); (13312, 19903); (19968, 42124); (42192, 42237);
   (42240, 42508); (42512, 42539); (42560, 42606); (42623, 42653);
   (42656, 42735); (42775, 42783); (42786, 42888); (42891, 42954);
   (42960, 42961); (42963, 42963); (42965, 42969); (42994, 43009);
   (43011, 43013); (43015, 43018); (43020, 43042); (43056, 43061);
   (43072, 43123); (43138, 43187); (43216, 43225); (43250, 43255);
   (43259, 43259); (43261, 43262); (43264, 43301); (43312, 43334);
   (43360, 43388); (43396, 43442); (43471, 43481); (43488, 43492);
   (43494, 43518); (43520, 43560); (43584, 43586); (43588, 43595);
   (43600, 43609); (43616, 43638); (43642, 43642); (43646, 43695);
   (43697, 43697); (43701, 43702); (43705, 43709); (43712, 43712);
   (43714, 43714); (43739, 43741); (43744, 43754); (43762, 43764);
   (43777, 43782); (43785, 43790); (43793, 43798); (43808, 43814);
   (43816, 43822); (43824, 43866); (43868, 43881); (43888, 44002);
   (44016, 44025); (44032, 55203); (55216, 55238); (55243, 55291);
   (63744, 64109); (64112, 64217); (64256, 64262); (64275, 64279);
   (64285, 64285); (64287, 64296); (64298, 64310); (64312, 64316);
   (64318, 64318); (64320, 64321); (64323, 64324); (64326, 64433);
   (64467, 64829); (64848, 64911); (64914, 64967); (65008, 65019);
   (65136, 65140); (65142, 65276); (65296, 65305); (65313, 65338);
   (65345, 65370); (65382, 65470); (65474, 65479); (65482, 65487);
   (65490, 65495); (65498, 65500); (65536, 65547); (65549, 65574);
   (65576, 65594); (65596, 65597); (65599, 65613); (65616, 65629);
   (65664, 65786); (65799, 65843); (65856, 65912); (65930, 65931);
   (66176, 66204); (66208, 66256); (66273, 66299); (66304, 66339);
   (66349, 66378); (66384, 66421); (66432, 66461); (66464, 66499);
   (66504, 66511); (66513, 66517); (66560, 66717); (66720, 66729);
   (66736, 66771); (66776, 66811); (66816, 66855); (66864, 66915);
   (66928, 66938); (66940, 66954); (66956, 66962); (66964, 66965);
   (66967, 66977); (66979, 66993); (66995, 67001); (67003, 67004);
   (67072, 67382); (67392, 67413); (67424, 67431); (67456, 67461);
   (67463, 67504); (67506, 67514); (67584, 67589); (67592, 67592);
   (67594, 67637); (67639, 67640); (67644, 67644); (67647, 67669);
   (67672, 67702); (67705, 67742); (67751, 67759); (67808, 67826);
   (67828, 67829); (67835, 67867); (67872, 67897); (67968, 68023);
   (68028, 68047); (68050, 68096); (68112, 68115); (68117, 68119);
   (68121, 68149); (68160, 68168); (68192, 68222); (68224, 68255);
   (68288, 68295); (68297, 68324); (68331, 68335); (68352, 68405);
   (68416, 68437); (68440, 68466); (68472, 68497); (68521, 68527);
   (68608, 68680); (68736, 68786); (68800, 68850); (68858, 68899);
   (68912, 68921); (69216, 69246); (69248, 69289); (69296, 69297);
   (69376, 69415); (69424, 69445); (69457, 69460); (69488, 69505);
   (69552, 69579); (69600, 69622); (69635, 69687); (69714, 69743);
   (69745, 69746); (69749, 69749); (69763, 69807); (69840, 69864);
   (69872, 69881); (69891, 69926); (69942, 69951); (69956, 69956);
   (69959, 69959); (69968, 70002); (70006, 70006); (70019, 70066);
   (70081, 70084); (70096, 70106); (70108, 70108); (70113, 70132);
   (70144, 70161); (70163, 70187); (70272, 70278); (70280, 70280);
   (70282, 70285); (70287, 70301); (70303, 70312); (70320, 70366);
   (70384, 70393); (70405, 70412); (70415, 70416); (70419, 70440);
   (70442, 70448); (70450, 70451); (70453, 70457); (70461, 70461);
   (70480, 70480); (70493, 70497); (70656, 70708); (70727, 70730);
   (70736, 70745); (70751, 70753); (70784, 70831); (70852, 70853);
   (70855, 70855); (70864, 70873); (71040, 71086); (71128, 71131);
   (71168, 71215); (71236, 71236); (71248, 71257); (71296, 71338);
   (71352, 71352); (71360, 71369); (71424, 71450); (71472, 71483);
   (71488, 71494); (71680, 71723); (71840, 71922); (71935, 71942);
   (71945, 71945); (71948, 71955); (71957, 71958); (71960, 71983);
   (71999, 71999); (72001, 72001); (72016, 72025); (72096, 72103);
   (72106, 72144); (72161, 72161); (72163, 72163); (72192, 72192);
   (72203, 72242); (72250, 72250); (72272, 72272); (72284, 72329);
   (72349, 72349); (72368, 72440); (72704, 72712); (72714, 72750);
   (72768, 72768); (72784, 72812); (72818, 72847); (72960, 72966);
   (72968, 72969); (72971, 73008); (73030, 73030); (73040, 73049);
   (73056, 73061); (73063, 73064); (73066, 73097); (73112, 73112);
   (73120, 73129); (73440, 73458); (73648, 73648); (73664, 73684);
   (73728, 74649); (74752, 74862); (74880, 75075); (77712, 77808);
   (77824, 78894); (82944, 83526); (92160, 92728); (92736, 92766);
   (92768, 92777); (92784, 92862); (92864, 92873); (92880, 92909);
   (92928, 92975); (92992, 92995); (93008, 93017); (93019, 93025);
   (93027, 93047); (93053, 93071); (93760, 93846); (93952, 94026);
   (94032, 94032); (94099, 94111); (94176, 94177); (94179, 94179);
   (94208, 100343); (100352, 101589); (101632, 101640); (110576, 110579);
   (110581, 110587); (110589, 110590); (110592, 110882); (110928, 110930);
   (110948, 110951); (110960, 111355); (113664, 113770); (113776, 113788);
   (113792, 113800); (113808, 113817); (119520, 119539); (119648, 119672);
   (119808, 119892); (119894, 119964); (119966, 119967); (119970, 119970);
   (119973, 119974); (119977, 119980); (119982, 119993); (119995, 119995);
   (119997, 120003); (120005, 120069); (120071, 120074); (120077, 120084);
   (120086, 120092); (120094, 120121); (120123, 120126); (120128, 120132);
   (120134, 120134); (120138, 120144); (120146, 120485); (120488, 120512);
   (120514, 120538); (120540, 120570); (120572, 120596); (120598, 120628);
   (120630, 120654); (120656, 120686); (120688, 120712); (120714, 120744);
   (120746, 120770); (120772, 120779); (120782, 120831); (122624, 122654);
   (123136, 123180); (123191, 123197); (123200, 123209); (123214, 123214);
   (123536, 123565); (123584, 123627); (123632, 123641); (124896, 124902);
   (124904, 124907); (124909, 124910); (124912, 124926); (124928, 125124);
   (125127, 125135); (125184, 125251); (125259, 125259); (125264, 125273);
   (126065, 126123); (126125, 126127); (126129, 126132); (126209, 126253);
   (126255, 126269); (126464, 126467); (126469, 126495); (126497, 126498);
   (126500, 126500); (126503, 126503); (126505, 126514); (126516, 126519);
   (126521, 126521); (126523, 126523); (126530, 126530); (126535, 126535);
   (126537, 126537); (126539, 126539); (126541, 126543); (126545, 126546);
   (126548, 126548); (126551, 126551); (126553, 126553); (126555, 126555);
   (126557, 126557); (126559, 126559); (126561, 126562); (126564, 126564);
   (126567, 126570); (126572, 126578); (126580, 126583); (126585, 126588);
   (126590, 126590); (126592, 126601); (126603, 126619); (126625, 126627);
   (126629, 126633); (126635, 126651); (127232, 127244); (130032, 130041);
   (131072, 173791); (173824, 177976); (177984, 178205); (178208, 183969);
   (183984, 191456); (194560, 195101); (196608, 201546)
  ].

Definition isalnum (c : char) : bool := in_ranges alnum_ranges c.

(** [SRE_UNI_IS_WORD]; what [\w] matches, and the class [\b] is about. *)
Definition isword (c : char) : bool := isalnum c || (c =? 95).

(** The characters [0] to [9]. *)
Definition is_ascii_digit (c : char) : bool := (48 <=? c) && (c <=? 57).

End Unicode.

(** ** Exceptions

    The only exception the core can raise is the [ValueError] of [int]. *)

Inductive exc : Type := ValueError.

Inductive result (A : Type) : Type :=
| Ok (a : A)
| Raise (e : exc).

Arguments Ok {A} a.
Arguments Raise {A} e.

Definition bind {A B : Type} (m : result A) (k : A -> result B) : result B :=
  match m with
  | Ok a => k a
  | Raise e => Raise e
  end.

Notation "x <- m ;; k" := (bind m (fun x => k))
  (at level 61, m at next level, right associativity).

(** [try: body  except: handler]; the bare [except] catches everything. *)
Definition try_except {A : Type} (body : result A) (handler : exc -> result A)
  : result A :=
  match body with
  | Ok a => Ok a
  | Raise e => handler e
  end.

(** ** [int(s)] on a [str], base 10

    [PyLong_FromUnicodeObject]: the string is first rewritten to ASCII
    ([_PyUnicode_TransformDecimalAndSpaceToASCII]), then read by
    [PyLong_FromString]. *)

Module PyInt.
Import Unicode.
Local Open Scope N_scope.

(** Non-ASCII decimals become [0]..[9], non-ASCII spaces become a blank,
    and the first other non-ASCII character becomes [?] and ends the
    rewriting. *)
Fixpoint transform (s : str) : str :=
  match s with
  | [] => []
  | ch :: r =>
      if ch <? 127 then ch :: transform r
      else if isspace ch then 32 :: transform r
      else match todecimal ch with
           | Some d => (48 + d) :: transform r
           | None => [63]
           end
  end.

(** An all-ASCII string is returned as it is. *)
Definition to_ascii (s : str) : str :=
  if forallb (fun c => c <? 128) s then s else transform s.

(** [Py_ISSPACE]: the C locale's white space. *)
Definition c_isspace (c : char) : bool := ((9 <=? c) && (c <=? 13)) || (c =? 32).

Fixpoint skip_spaces (s : str) : str :=
  match s with
  | c :: r => if c_isspace c then skip_spaces r else s
  | [] => []
  end.

(** The digit scan of [PyLong_FromString]: digits and single underscores
    between them.  [prev] is the previous character, [n] counts the digits,
    [acc] is the value read so far; the result also holds the unread rest. *)
Fixpoint scan_digits (s : str) (prev : option char) (n : nat) (acc : Z)
  : option (Z * nat * str) :=
  let finish :=
    match prev with
    | Some 95 => None
    | _ => Some (acc, n, s)
    end in
  match s with
  | c :: r =>
      if is_ascii_digit c then
        scan_digits r (Some c) (S n) (10 * acc + Z.of_N (c - 48))%Z
      else if c =? 95 then
        match prev with
        | Some 95 => None
        | _ => scan_digits r (Some c) n acc
        end
      else finish
  | [] => finish
  end.

(** [sys.int_info.default_max_str_digits]. *)
Definition max_str_digits : nat := 4300.

Definition from_string (s : str) : option Z :=
  let s1 := skip_spaces s in
  let '(neg, s2) :=
    match s1 with
    | 43 :: r => (false, r)
    | 45 :: r => (true, r)
    | _ => (false, s1)
    end in
  match s2 with
  | 95 :: _ => None
  | _ =>
      match scan_digits s2 None 0 0%Z with
      | None => None
      | Some (v, n, rest) =>
          if (n =? 0)%nat then None
          else if (max_str_digits <? n)%nat then None
          else match skip_spaces rest with
               | [] => Some (if neg then (- v)%Z else v)
               | _ :: _ => None
               end
      end
  end.

Definition int (s : str) : result Z :=
  match from_string (to_ascii s) with
  | Some v => Ok v
  | None => Raise ValueError
  end.

End PyInt.

(** ** The key validator *)

Import Unicode.

Definition modelos_validos : list Z := [55; 65; 57; 66]%Z.

(** The body of the [try] block of [validar_chave_nfe]. *)
Definition validar_corpo (chave : str) : result bool :=
  uf <- PyInt.int (slice chave 0 2) ;;
  if ((uf <? 10) || (uf >? 53))%Z then Ok false else
  ano <- PyInt.int (slice chave 2 4) ;;
  mes <- PyInt.int (slice chave 4 6) ;;
  if ((mes <? 1) || (mes >? 12) || (ano <? 0) || (ano >? 99))%Z then Ok false else
  let cnpj := slice chave 6 20 in
  if len_set cnpj <=? 2 then Ok false else
  modelo <- PyInt.int (slice chave 20 22) ;;
  if negb (existsb (Z.eqb modelo) modelos_validos) then Ok false else
  if len_set chave <=? 5 then Ok false else
  Ok true.

Definition validar_chave_nfe (chave : str) : result bool :=
  if negb (List.length chave =? 44) then Ok false else
  if startswith chave (py "50") && (5 <? len_set chave) then Ok true else
  try_except (validar_corpo chave) (fun _ => Ok false).

(** The two acceptance paths, named apart: the 50-prefix path and the
    general structural path (the [try] block, an exception counting as a
    rejection). *)
Definition caminho_prefixo_50 (chave : str) : bool :=
  startswith chave (py "50") && (5 <? len_set chave).

Definition caminho_geral (chave : str) : bool :=
  match validar_corpo chave with
  | Ok b => b
  | Raise _ => false
  end.

(** ** Regular expressions

    The patterns of the program use word boundaries, single-character
    classes, greedy repetitions of a single-character class and capturing
    groups; [sre_compile] turns them into the opcodes below (a group is a
    pair of marks, a repetition of a one-character body is [REPEAT_ONE]). *)

Module Re.
Import Unicode.

Inductive category : Type :=
| Category_digit   (* \d *)
| Category_space.  (* \s *)

Inductive item : Type :=
| Literal (c : char)
| Range (lo hi : char)
| Category (k : category).

(** A one-character class: a literal, [\d], [\s], or a bracketed set. *)
Record charset : Type := Charset { negate : bool; items : list item }.

Inductive op : Type :=
| Op_at_boundary                                            (* \b *)
| Op_in (cs : charset)                                      (* one character *)
| Op_repeat_one (mn : nat) (mx : option nat) (cs : charset) (* greedy x{mn,mx} *)
| Op_mark (i : nat).                                        (* group boundary *)

Definition pattern := list op.

Definition category_match (k : category) (c : char) : bool :=
  match k with
  | Category_digit => isdecimal c
  | Category_space => isspace c
  end.

Definition item_match (i : item) (c : char) : bool :=
  match i with
  | Literal l => N.eqb c l
  | Range lo hi => N.leb lo c && N.leb c hi
  | Category k => category_match k c
  end.

Definition charset_match (cs : charset) (c : char) : bool :=
  xorb (negate cs) (existsb (fun i => item_match i c) (items cs)).

(** Whether the character at a position, if there is one, is a word
    character ([SRE_AT_UNI_BOUNDARY] takes a missing neighbour as not one). *)
Definition word_at (c : option char) : bool :=
  match c with
  | Some x => isword x
  | None => false
  end.

(** Positions recorded by the marks, the latest first. *)
Definition marks := list (nat * nat).

Fixpoint get_mark (mk : marks) (i : nat) : option nat :=
  match mk with
  | [] => None
  | (j, p) :: r => if j =? i then Some p else get_mark r i
  end.

Definition below (mx : option nat) (cnt : nat) : bool :=
  match mx with
  | Some m => cnt <? m
  | None => true
  end.

(** [REPEAT_ONE]: take as many characters of the class as possible (at most
    [mx]), then try the tail [k] of the pattern, giving characters back one
    at a time while at least [mn] stay taken.  [cnt] counts the characters
    taken so far, [prev] is the character before the position. *)
Fixpoint repeat_one {A : Type} (cs : charset) (mn : nat) (mx : option nat)
    (k : option char -> str -> nat -> option A)
    (cnt : nat) (prev : option char) (rest : str) (pos : nat) : option A :=
  let stop (_ : unit) := if mn <=? cnt then k prev rest pos else None in
  match rest with
  | c :: r =>
      if charset_match cs c && below mx cnt then
        match repeat_one cs mn mx k (S cnt) (Some c) r (S pos) with
        | Some res => Some res
        | None => stop tt
        end
      else stop tt
  | [] => stop tt
  end.

(** [sre_match] from position [pos], where [rest] is the text from [pos] on
    and [prev] the character before it.  The match began at [start]; with
    [must_advance] an empty match is refused.  The result is the end of the
    match and the marks. *)
Fixpoint exec (p : pattern) (start : nat) (must_advance : bool) (mk : marks)
    (prev : option char) (rest : str) (pos : nat) : option (nat * marks) :=
  match p with
  | [] =>
      if must_advance && (pos =? start) then None else Some (pos, mk)
  | Op_at_boundary :: p' =>
      if xorb (word_at prev) (word_at (hd_error rest))
      then exec p' start must_advance mk prev rest pos
      else None
  | Op_in cs :: p' =>
      match rest with
      | c :: r =>
          if charset_match cs c
          then exec p' start must_advance mk (Some c) r (S pos)
          else None
      | [] => None
      end
  | Op_repeat_one mn mx cs :: p' =>
      repeat_one cs mn mx (exec p' start must_advance mk) 0 prev rest pos
  | Op_mark i :: p' =>
      exec p' start must_advance ((i, pos) :: mk) prev rest pos
  end.

(** One match: its span and its marks. *)
Record span : Type := Span { m_start : nat; m_end : nat; m_marks : marks }.

(** The successive non-overlapping matches of [p], left to right, as the
    loop of [finditer], [findall] and [sub] finds them: a search starts
    where the previous match ended ([after e] resumes at [e]; with no match
    at [pos] the search resumes at [pos + 1]); after an empty match the next
    one at the same position must advance.  [skip] counts the characters
    still inside the previous match. *)
Fixpoint scan (p : pattern) (skip : nat) (prev : option char) (rest : str)
    (pos : nat) : list span :=
  match skip with
  | S k =>
      match rest with
      | [] => []
      | c :: r => scan p k (Some c) r (S pos)
      end
  | O =>
      let after (e : nat) :=
        match rest with
        | [] => []
        | c :: r => scan p (e - S pos) (Some c) r (S pos)
        end in
      match exec p pos false [] prev rest pos with
      | None => after (S pos)
      | Some (e, mk) =>
          if e =? pos then
            Span pos pos mk ::
            match exec p pos true [] prev rest pos with
            | Some (e2, mk2) => Span pos e2 mk2 :: after e2
            | None => after (S pos)
            end
          else Span pos e mk :: after e
      end
  end.

Definition finditer (p : pattern) (text : str) : list span :=
  scan p 0 None text 0.

(** [m.group(0)] and [m.group(i)] for [i >= 1]; a group that took no part
    in the match reads as the empty string in [findall]. *)
Definition group0 (text : str) (m : span) : str :=
  slice text (m_start m) (m_end m).

Definition group (text : str) (i : nat) (m : span) : str :=
  match get_mark (m_marks m) (2 * i - 2), get_mark (m_marks m) (2 * i - 1) with
  | Some a, Some b => slice text a b
  | _, _ => []
  end.

(** [re.findall] for a pattern with no group, one group, two groups. *)
Definition findall0 (p : pattern) (text : str) : list str :=
  map (group0 text) (finditer p text).

Definition findall1 (p : pattern) (text : str) : list str :=
  map (group text 1) (finditer p text).

Definition findall2 (p : pattern) (text : str) : list (str * str) :=
  map (fun m => (group text 1 m, group text 2 m)) (finditer p text).

(** [re.sub(p, '', text)]: the text between the matches. *)
Fixpoint sub_pieces (text : str) (from : nat) (ms : list span) : str :=
  match ms with
  | [] => skipn from text
  | m :: ms' => slice text from (m_start m) ++ sub_pieces text (m_end m) ms'
  end.

Definition sub_empty (p : pattern) (text : str) : str :=
  sub_pieces text 0 (finditer p text).

(** [re.IGNORECASE] on a literal of a [str] pattern: the code points whose
    lower case is the literal, with the extra equivalents of
    [sre_compile]'s table ([i] and the dotted/dotless i, [k] and the Kelvin
    sign, [s] and the long s).  The literals of the program's patterns are
    ASCII. *)
Definition ignorecase_item (i : item) : list item :=
  match i with
  | Literal c =>
      if N.leb 97 c && N.leb c 122 then
        [Literal c; Literal (c - 32)%N] ++
        (if N.eqb c 105 then [Literal 304%N; Literal 305%N]
         else if N.eqb c 107 then [Literal 8490%N]
         else if N.eqb c 115 then [Literal 383%N]
         else [])
      else if N.leb 65 c && N.leb c 90 then
        [Literal (c + 32)%N; Literal c] ++
        (if N.eqb c 73 then [Literal 304%N; Literal 305%N]
         else if N.eqb c 75 then [Literal 8490%N]
         else if N.eqb c 83 then [Literal 383%N]
         else [])
      else [i]
  | _ => [i]
  end.

Definition ignorecase_charset (cs : charset) : charset :=
  Charset (negate cs) (flat_map ignorecase_item (items cs)).

Definition ignorecase_op (o : op) : op :=
  match o with
  | Op_in cs => Op_in (ignorecase_charset cs)
  | Op_repeat_one mn mx cs => Op_repeat_one mn mx (ignorecase_charset cs)
  | _ => o
  end.

Definition ignorecase (p : pattern) : pattern := map ignorecase_op p.

End Re.

(** ** The patterns of the program *)

Import Re.

Definition cs_digit : charset := Charset false [Category Category_digit].
Definition cs_space : charset := Charset false [Category Category_space].
Definition cs_lit (c : char) : charset := Charset false [Literal c].

(** [\d{4}], [\s+], [\s*] and a literal character. *)
Definition d4 : op := Op_repeat_one 4 (Some 4) cs_digit.
Definition s_plus : op := Op_repeat_one 1 None cs_space.
Definition s_star : op := Op_repeat_one 0 None cs_space.
Definition lit (c : char) : op := Op_in (cs_lit c).

(** [n] copies of a piece of a pattern, one after the other. *)
Fixpoint times (n : nat) (p : pattern) : pattern :=
  match n with
  | O => []
  | S k => p ++ times k p
  end.

(** The literal characters of a string, one opcode each. *)
Definition lits (s : string) : pattern := map lit (py s).

Definition PADRAO_CHAVE_NFE : pattern :=
  [Op_at_boundary; Op_repeat_one 44 (Some 44) cs_digit; Op_at_boundary].

Definition PADRAO_CHAVE_ESPACOS : pattern :=
  [Op_at_boundary; Op_mark 0] ++ times 10 [d4; s_plus] ++
  [Op_repeat_one 0 (Some 4) cs_digit; Op_mark 1; Op_at_boundary].

(** The separators [[.\s-]*] of [PADRAO_CHAVE_BLOCOS]. *)
Definition sep_star : op :=
  Op_repeat_one 0 None
    (Charset false [Literal 46%N; Category Category_space; Literal 45%N]).

Definition PADRAO_CHAVE_BLOCOS : pattern :=
  [Op_at_boundary; Op_mark 0] ++ times 10 [d4; sep_star] ++
  [d4; Op_mark 1; Op_at_boundary].

(** Ten groups of four digits separated by white space. *)
Definition dez_grupos : pattern := d4 :: times 9 [s_plus; d4].

(** The line break and the last group: [\s*\n\s*(\d{4})]. *)
Definition quebra_e_grupo : pattern :=
  [s_star; lit 10%N; s_star; Op_mark 2; d4; Op_mark 3].

Definition PADRAO_ENERGISA_1 : pattern :=
  lits "chave" ++ [s_plus] ++ lits "de" ++ [s_plus] ++ lits "acesso" ++
  [s_star; Op_repeat_one 0 (Some 1) (cs_lit 58%N); s_star;
   Op_repeat_one 0 (Some 1) (cs_lit 10%N); s_star] ++
  [Op_mark 0] ++ dez_grupos ++ [Op_mark 1] ++ quebra_e_grupo.

Definition PADRAO_ENERGISA_2 : pattern :=
  [Op_at_boundary; Op_mark 0] ++ dez_grupos ++ [Op_mark 1] ++
  quebra_e_grupo ++ [Op_at_boundary].

Definition PADRAO_DCELT : pattern :=
  [Op_at_boundary; Op_mark 0] ++ d4 :: times 10 [s_plus; d4] ++
  [Op_mark 1; Op_at_boundary].

(** [\b\d{8,}\b], the pattern of the digit runs (line 186). *)
Definition PADRAO_SEQUENCIA : pattern :=
  [Op_at_boundary; Op_repeat_one 8 None cs_digit; Op_at_boundary].

(** [[^0-9]], the pattern of [limpar_chave]. *)
Definition NAO_DIGITO : pattern := [Op_in (Charset true [Range 48%N 57%N])].

(** *** The patterns written back as text

    [render] prints a pattern in the syntax of [re]; it is used to compare
    the patterns above with the literals of the source. *)

Module Render.

Definition nat_str (n : nat) : string := NilEmpty.string_of_uint (Nat.to_uint n).

Definition chr (c : char) : string :=
  if N.eqb c 10 then "\n"%string else String (ascii_of_N c) EmptyString.

Definition item_str (i : item) : string :=
  match i with
  | Literal c => chr c
  | Range lo hi => (chr lo ++ "-" ++ chr hi)%string
  | Category Category_digit => "\d"%string
  | Category Category_space => "\s"%string
  end.

Definition charset_str (cs : charset) : string :=
  match negate cs, items cs with
  | false, [i] => item_str i
  | false, l => ("[" ++ String.concat "" (map item_str l) ++ "]")%string
  | true, l => ("[^" ++ String.concat "" (map item_str l) ++ "]")%string
  end.

Definition quantifier (mn : nat) (mx : option nat) : string :=
  match mn, mx with
  | 0, None => "*"%string
  | 1, None => "+"%string
  | 0, Some 1 => "?"%string
  | _, None => ("{" ++ nat_str mn ++ ",}")%string
  | _, Some m =>
      if mn =? m then ("{" ++ nat_str mn ++ "}")%string
      else ("{" ++ nat_str mn ++ "," ++ nat_str m ++ "}")%string
  end.

Definition op_str (o : op) : string :=
  match o with
  | Op_at_boundary => "\b"%string
  | Op_in cs => charset_str cs
  | Op_repeat_one mn mx cs => (charset_str cs ++ quantifier mn mx)%string
  | Op_mark i => if Nat.even i then "("%string else ")"%string
  end.

Definition render (p : pattern) : string := String.concat "" (map op_str p).

End Render.

(** ** The normaliser, the scanner and the aggregator *)

Definition limpar_chave (chave : str) : str := sub_empty NAO_DIGITO chave.

(** A Python [set] of strings: a list without repetition.  The order in
    which Python iterates over a set is not specified; the model keeps the
    order of insertion, and no statement below depends on it. *)
Definition conjunto := list str.

Definition add (c : str) (s : conjunto) : conjunto := set_add str_eq_dec c s.

(** A loop [for c in cs: s.add(c)]. *)
Definition add_all (cs : list str) (s : conjunto) : conjunto :=
  fold_left (fun acc c => add c acc) cs s.

Definition tem_44 (c : str) : bool := List.length c =? 44.

(** What each loop of [encontrar_chaves_acesso] hands to [candidatos.add],
    in order. *)
Definition cand_nfe (texto : str) : list str :=
  findall0 PADRAO_CHAVE_NFE texto.

Definition cand_espacos (texto : str) : list str :=
  map limpar_chave (findall1 PADRAO_CHAVE_ESPACOS texto).

Definition cand_blocos (texto : str) : list str :=
  map limpar_chave (findall1 PADRAO_CHAVE_BLOCOS texto).

Definition junta (partes : str * str) : str :=
  limpar_chave (fst partes ++ snd partes).

(** The first Energisa pattern is compiled with [re.IGNORECASE] and
    [re.DOTALL]; the latter changes the meaning of [.] alone, which the
    pattern does not use. *)
Definition cand_energisa_1 (texto : str) : list str :=
  filter tem_44 (map junta (findall2 (ignorecase PADRAO_ENERGISA_1) texto)).

Definition cand_energisa_2 (texto : str) : list str :=
  filter tem_44 (map junta (findall2 PADRAO_ENERGISA_2 texto)).

Definition cand_dcelt (texto : str) : list str :=
  filter tem_44 (map limpar_chave (findall1 PADRAO_DCELT texto)).

(** The sliding window over one digit run (lines 188 to 191). *)
Definition janelas (sq : str) : list str :=
  if 44 <=? List.length sq
  then map (fun i => slice sq i (i + 44)) (seq 0 (List.length sq - 43))
  else [].

Definition cand_janelas (texto : str) : list str :=
  flat_map janelas (findall0 PADRAO_SEQUENCIA texto).

(** The set [candidatos] when the validation loop starts. *)
Definition candidatos (texto : str) : conjunto :=
  let c := [] in
  let c := add_all (cand_nfe texto) c in
  let c := add_all (cand_espacos texto) c in
  let c := add_all (cand_blocos texto) c in
  let c := add_all (cand_energisa_1 texto) c in
  let c := add_all (cand_energisa_2 texto) c in
  let c := add_all (cand_dcelt texto) c in
  add_all (cand_janelas texto) c.

(** The validation loop (lines 194 to 196). *)
Fixpoint validar_todos (cands : list str) (chaves : conjunto) : result conjunto :=
  match cands with
  | [] => Ok chaves
  | c :: r =>
      if tem_44 c then
        v <- validar_chave_nfe c ;;
        validar_todos r (if v then add c chaves else chaves)
      else validar_todos r chaves
  end.

Definition encontrar_chaves_acesso (texto : str) : result (list str) :=
  validar_todos (candidatos texto) [].

(** What the validation loop asks of a candidate: 44 characters, and one
    of the two paths of the validator. *)
Definition aceita (c : str) : bool :=
  tem_44 c && (caminho_prefixo_50 c || caminho_geral c).

(** The routing decision of [processar_arquivos] ([if chaves:]). *)
Definition tem_chave (chaves : list str) : bool :=
  match chaves with
  | [] => false
  | _ :: _ => true
  end.

(** The character before the position reached after reading [s]. *)
Definition prev_after (prev : option char) (s : str) : option char :=
  fold_left (fun _ c => Some c) s prev.


(** ** The document loop and the report of [processar_arquivos]

    The loop of lines 231 to 260 and the report of lines 264 to 296.  The
    collaborators outside the core are given by what they returned: for
    each file of [arquivos_pdf], the text [extrair_texto_pdf] returned (or
    that it raised) and whether [shutil.copy2] returned or raised;
    [os.path.join] is a function on strings; the time stamp is a string.
    The messages printed on the way are left out. *)

(** One file of [arquivos_pdf] and what the collaborators did with it. *)
Record documento : Type := Documento {
  nome : str;
  texto_extraido : option str;  (* [None]: [extrair_texto_pdf] raised *)
  copia_ok : bool               (* [false]: [shutil.copy2] raised *)
}.

Record pastas : Type := Pastas {
  join : str -> str -> str;     (* [os.path.join] *)
  pasta_pdfs : str;
  pasta_com_chave : str;
  pasta_sem_chave : str
}.

(** The variables of [processar_arquivos] that the loop updates, and the
    copies made so far as pairs (source, destination). *)
Record estado : Type := Estado {
  resultados : list (str * list str);
  arquivos_processados : nat;
  arquivos_com_chave : nat;
  copias : list (str * str)
}.

Definition estado_inicial : estado := Estado [] 0 0 [].

(** [d[k] = v] on a dictionary, which keeps the order of insertion. *)
Fixpoint dict_set (d : list (str * list str)) (k : str) (v : list str)
  : list (str * list str) :=
  match d with
  | [] => [(k, v)]
  | (k', v') :: r =>
      if str_eq_dec k k' then (k', v) :: r else (k', v') :: dict_set r k v
  end.

(** The body of the loop; an exception leaves the loop body at once and is
    caught by [except Exception], what was updated before stays updated. *)
Definition processar_um (cfg : pastas) (st : estado) (d : documento) : estado :=
  let caminho_completo := join cfg (pasta_pdfs cfg) (nome d) in
  match texto_extraido d with
  | None => st
  | Some texto_completo =>
      match encontrar_chaves_acesso texto_completo with
      | Raise _ => st
      | Ok chaves =>
          let processados := S (arquivos_processados st) in
          let '(res, com_chave, caminho_destino) :=
            if tem_chave chaves
            then (dict_set (resultados st) (nome d) chaves,
                  S (arquivos_com_chave st),
                  join cfg (pasta_com_chave cfg) (nome d))
            else (resultados st,
                  arquivos_com_chave st,
                  join cfg (pasta_sem_chave cfg) (nome d)) in
          Estado res processados com_chave
                 (if copia_ok d
                  then copias st ++ [(caminho_completo, caminho_destino)]
                  else copias st)
      end
  end.

Definition processar_lista (cfg : pastas) (docs : list documento) : estado :=
  fold_left (processar_um cfg) docs estado_inicial.

(** [s.split(sep)] for a separator of one character. *)
Fixpoint split_char (sep : char) (s : str) : list str :=
  match s with
  | [] => [[]]
  | c :: r =>
      if N.eqb c sep then [] :: split_char sep r
      else match split_char sep r with
           | p :: ps => (c :: p) :: ps
           | [] => [[c]]
           end
  end.

(** [sep.join(parts)]. *)
Fixpoint join_char (sep : char) (parts : list str) : str :=
  match parts with
  | [] => []
  | [p] => p
  | p :: ps => p ++ sep :: join_char sep ps
  end.

(** [s.replace(old, '')] for a non-empty [old]: the occurrences are removed
    from left to right, without overlap.  [skip] counts the characters
    still inside the occurrence being removed. *)
Fixpoint remove_all (old : str) (skip : nat) (s : str) : str :=
  match s with
  | [] => []
  | c :: r =>
      match skip with
      | S k => remove_all old k r
      | O =>
          if startswith s old then remove_all old (List.length old - 1) r
          else c :: remove_all old 0 r
      end
  end.

Definition replace_vazio (old s : str) : str := remove_all old 0 s.

(** [empresa], [numero_doc] and [filial] of a file name (lines 275 to 287). *)
Definition campos_do_nome (nome_arquivo : str) : str * str * str :=
  let partes := split_char 95%N nome_arquivo in
  let empresa := if 0 <? List.length partes then nth 0 partes [] else [] in
  let numero_doc := if 1 <? List.length partes then nth 1 partes [] else [] in
  let filial :=
    if 3 <? List.length partes
    then replace_vazio (py ".PDF") (replace_vazio (py ".pdf") (nth 3 partes []))
    else [] in
  (empresa, numero_doc, filial).






(** The keys of a text, as the loop sees them. *)
Definition chaves_do_texto (texto : str) : list str :=
  match encontrar_chaves_acesso texto with
  | Ok chaves => chaves
  | Raise _ => []
  end.

(** The files the loop counts, and those among them with a key. *)
Definition foi_processado (d : documento) : bool :=
  match texto_extraido d with
  | Some _ => true
  | None => false
  end.

Definition tem_chave_doc (d : documento) : bool :=
  match texto_extraido d with
  | Some t => tem_chave (chaves_do_texto t)
  | None => false
  end.

Definition chaves_doc (d : documento) : list str :=
  match texto_extraido d with
  | Some t => chaves_do_texto t
  | None => []
  end.

(** Where the loop copies a file: from the input folder to the has-key
    folder when the text gave a key, to the no-key folder otherwise. *)
Definition copia_de (cfg : pastas) (d : documento) : str * str :=
  (join cfg (pasta_pdfs cfg) (nome d),
   join cfg (if tem_chave_doc d then pasta_com_chave cfg else pasta_sem_chave cfg)
        (nome d)).


(** ** Fields, and the concrete inputs of the statements below *)

(** The numeric fields of a key, as the slices [int] is applied to: the
    federative unit, the year, the month and the document model. *)
Definition campos_numericos : list (nat * nat) := [(0, 2); (2, 4); (4, 6); (20, 22)].

(** The date test of line 84. *)
Definition aamm_invalido (mes ano : Z) : bool :=
  ((mes <? 1) || (mes >? 12) || (ano <? 0) || (ano >? 99))%Z.

(** Keys used as concrete inputs below. *)
Definition chave_modelo_55 : str := py "35250812345678012345556789012345678901234567".
Definition chave_50_modelo_00 : str := py "50250812345678012345006789012345678901234567".
Definition chave_50_letras : str := py "50ABCDEFGHIJKLMNOPQRSTUVWXYZabcdefghijklmnop".
Definition chave_ano_letra : str := py "35a50812345678012345556789012345678901234567".

(** Texts used as concrete inputs below. *)

(** The text of the end-to-end scenario, and the 44 digits it holds. *)
Definition texto_cenario : str :=
  py "Chave de acesso: 3525 0812 3456 7801 2345 6789 0123 4567 8901 2345"
  ++ [10%N] ++ py "6789".
Definition chave_cenario : str := py "35250812345678012345678901234567890123456789".

(** A valid key written in full-width digits (U+FF10 to U+FF19). *)
Definition chave_largura_total : str :=
  map (fun c => (c + 65248)%N) chave_modelo_55.


(** A run of fifty digits with a letter just before it. *)
Definition texto_letra_e_50 : str :=
  py "N12345678901234567890123456789012345678901234567890".

(** A valid key with letters just before it. *)
Definition texto_nfe_colado : str := py "NFe" ++ chave_modelo_55.

(** A key of federative unit 35 and model 55 with a valid date and three
    distinct characters in its CNPJ field, but four distinct digits in all. *)
Definition chave_4_distintos : str := py "35010101301301301301550000000000000000000000".


(** The characters of a candidate: ASCII digits, or decimal digits taken
    from the text as they stand. *)
Definition feito_de_digitos (texto c : str) : Prop :=
  Forall (fun x => Unicode.is_ascii_digit x = true \/
                   (Unicode.isdecimal x = true /\ List.In x texto)) c.

(** The number written by the two ASCII digits at positions [i] and
    [i + 1] of a string. *)
Definition num2 (s : str) (i : nat) : Z :=
  (10 * Z.of_N (nth i s 48%N - 48) + Z.of_N (nth (S i) s 48%N - 48))%Z.

(** [s] can be read in [l] from left to right, skipping characters. *)
Inductive subseq : str -> str -> Prop :=
| subseq_nil : forall l, subseq [] l
| subseq_take : forall c s l, subseq s l -> subseq (c :: s) (c :: l)
| subseq_skip : forall c s l, subseq s l -> subseq s (c :: l).

(** The groups of a pattern, as the indices of its marks in order. *)
Definition mark_ids (p : pattern) : list nat :=
  flat_map (fun o => match o with Op_mark i => [i] | _ => [] end) p.

(** [lo <= q1 <= q2 <= ... <= hi] for the positions [qs]. *)
Fixpoint chain (lo : nat) (qs : list nat) (hi : nat) : Prop :=
  match qs with
  | [] => lo <= hi
  | q :: r => lo <= q /\ chain q r hi
  end.

(** The number of decimal digits of a text. *)
Definition conta_digitos (texto : str) : nat :=
  List.length (filter Unicode.isdecimal texto).

(** The separators that [PADRAO_CHAVE_BLOCOS] allows between two groups:
    a dot, white space, a hyphen. *)
Definition separador (c : char) : bool :=
  N.eqb c 46 || Unicode.isspace c || N.eqb c 45.

(** A key printed in groups: each group followed by its separator, then
    the last group; and the digits of the groups alone. *)
Definition formatada (gs : list (str * str)) (ultimo : str) : str :=
  flat_map (fun g => fst g ++ snd g) gs ++ ultimo.

Definition digitos_dos_grupos (gs : list (str * str)) (ultimo : str) : str :=
  flat_map fst gs ++ ultimo.

(** A group of four ASCII digits with a separator made of dots, white
    space and hyphens (possibly empty). *)
Definition grupo_bem_formado (g : str * str) : Prop :=
  List.length (fst g) = 4 /\
  Forall (fun c => Unicode.is_ascii_digit c = true) (fst g) /\
  Forall (fun c => separador c = true) (snd g).

(** * Properties *)

(** ** The patterns are those of the source

    Each pattern, printed in the syntax of [re], is the literal of the
    source. *)

Example PADRAO_CHAVE_NFE_fonte :
  Render.render PADRAO_CHAVE_NFE = "\b\d{44}\b"%string.
Proof. reflexivity. Qed.

Example PADRAO_CHAVE_ESPACOS_fonte :
  Render.render PADRAO_CHAVE_ESPACOS =
  "\b(\d{4}\s+\d{4}\s+\d{4}\s+\d{4}\s+\d{4}\s+\d{4}\s+\d{4}\s+\d{4}\s+\d{4}\s+\d{4}\s+\d{0,4})\b"%string.
Proof. reflexivity. Qed.

Example PADRAO_CHAVE_BLOCOS_fonte :
  Render.render PADRAO_CHAVE_BLOCOS =
  "\b(\d{4}[.\s-]*\d{4}[.\s-]*\d{4}[.\s-]*\d{4}[.\s-]*\d{4}[.\s-]*\d{4}[.\s-]*\d{4}[.\s-]*\d{4}[.\s-]*\d{4}[.\s-]*\d{4}[.\s-]*\d{4})\b"%string.
Proof. reflexivity. Qed.

Example PADRAO_ENERGISA_1_fonte :
  Render.render PADRAO_ENERGISA_1 =
  "chave\s+de\s+acesso\s*:?\s*\n?\s*(\d{4}\s+\d{4}\s+\d{4}\s+\d{4}\s+\d{4}\s+\d{4}\s+\d{4}\s+\d{4}\s+\d{4}\s+\d{4})\s*\n\s*(\d{4})"%string.
Proof. reflexivity. Qed.

Example PADRAO_ENERGISA_2_fonte :
  Render.render PADRAO_ENERGISA_2 =
  "\b(\d{4}\s+\d{4}\s+\d{4}\s+\d{4}\s+\d{4}\s+\d{4}\s+\d{4}\s+\d{4}\s+\d{4}\s+\d{4})\s*\n\s*(\d{4})\b"%string.
Proof. reflexivity. Qed.

Example PADRAO_DCELT_fonte :
  Render.render PADRAO_DCELT =
  "\b(\d{4}\s+\d{4}\s+\d{4}\s+\d{4}\s+\d{4}\s+\d{4}\s+\d{4}\s+\d{4}\s+\d{4}\s+\d{4}\s+\d{4})\b"%string.
Proof. reflexivity. Qed.

Example PADRAO_SEQUENCIA_fonte :
  Render.render PADRAO_SEQUENCIA = "\b\d{8,}\b"%string.
Proof. reflexivity. Qed.

Example NAO_DIGITO_fonte :
  Render.render NAO_DIGITO = "[^0-9]"%string.
Proof. reflexivity. Qed.

(** With [re.IGNORECASE] the letter [c] of the label matches [c] and [C],
    and the letter [s] also the long s. *)
Example ignorecase_c :
  ignorecase_op (lit 99%N) = Op_in (Charset false [Literal 99%N; Literal 67%N]).
Proof. reflexivity. Qed.

Example ignorecase_s :
  ignorecase_op (lit 115%N) =
  Op_in (Charset false [Literal 115%N; Literal 83%N; Literal 383%N]).
Proof. reflexivity. Qed.

(** ** The character tables *)

Module UnicodeFacts.
Import Unicode.
Local Open Scope N_scope.

Lemma todecimal_inv (c d : N) :
  todecimal c = Some d ->
  exists z, List.In z nd_zeros /\ z <= c /\ c <= z + 9 /\ d = c - z.
Proof.
  unfold todecimal. destruct (find _ nd_zeros) as [z|] eqn:E; [|discriminate].
  intros [= <-]. apply find_some in E. destruct E as [Hin Hb].
  apply andb_true_iff in Hb. destruct Hb as [H1 H2].
  apply N.leb_le in H1. apply N.leb_le in H2. exists z. auto.
Qed.

Lemma todecimal_le9 (c d : N) : todecimal c = Some d -> d <= 9.
Proof.
  intros H. apply todecimal_inv in H. destruct H as (z & _ & H1 & H2 & ->). lia.
Qed.

Lemma zeros_ascii : forall z, List.In z nd_zeros -> z < 128 -> z = 48.
Proof.
  assert (H : forallb (fun z => (128 <=? z) || (z =? 48)) nd_zeros = true)
    by (vm_compute; reflexivity).
  intros z Hin Hlt. rewrite forallb_forall in H. specialize (H z Hin).
  apply orb_true_iff in H. destruct H as [H|H].
  - apply N.leb_le in H. lia.
  - now apply N.eqb_eq in H.
Qed.

(** Below 128 the decimals are the characters [0] to [9]. *)
Lemma todecimal_ascii (c d : N) :
  todecimal c = Some d -> c < 128 -> is_ascii_digit c = true /\ c = 48 + d.
Proof.
  intros H Hlt. apply todecimal_inv in H. destruct H as (z & Hin & H1 & H2 & ->).
  assert (z = 48) by (apply zeros_ascii; [assumption | lia]). subst z.
  split; [|lia]. unfold is_ascii_digit.
  apply andb_true_iff. split; apply N.leb_le; lia.
Qed.

Lemma ascii_digit_todecimal (c : N) :
  is_ascii_digit c = true -> todecimal c = Some (c - 48).
Proof.
  unfold is_ascii_digit, todecimal, nd_zeros. intros H.
  cbn [find]. change (48 + 9) with 57. now rewrite H.
Qed.

Lemma ascii_digit_isdecimal (c : N) : is_ascii_digit c = true -> isdecimal c = true.
Proof.
  intros H. unfold isdecimal. now rewrite (ascii_digit_todecimal c H).
Qed.

Lemma isdecimal_todecimal (c : N) :
  isdecimal c = true -> exists d, todecimal c = Some d.
Proof.
  unfold isdecimal. destruct (todecimal c) as [d|]; [eauto | discriminate].
Qed.

Lemma in_ranges_inv (tbl : list (N * N)) (c : N) :
  in_ranges tbl c = true -> exists lo hi, List.In (lo, hi) tbl /\ lo <= c /\ c <= hi.
Proof.
  unfold in_ranges. intros H. apply existsb_exists in H.
  destruct H as ([lo hi] & Hin & Hb). apply andb_true_iff in Hb.
  destruct Hb as [H1 H2]. apply N.leb_le in H1. apply N.leb_le in H2.
  exists lo, hi. auto.
Qed.

(** No decimal is white space. *)
Lemma decimal_not_space (c d : N) : todecimal c = Some d -> isspace c = false.
Proof.
  assert (T : forallb (fun z =>
               forallb (fun r => (snd r <? z) || (z + 9 <? fst r)) space_ranges)
             nd_zeros = true) by (vm_compute; reflexivity).
  intros H. apply todecimal_inv in H. destruct H as (z & Hin & H1 & H2 & _).
  destruct (isspace c) eqn:E; [|reflexivity].
  apply in_ranges_inv in E. destruct E as (lo & hi & Hr & H3 & H4).
  rewrite forallb_forall in T. specialize (T z Hin).
  rewrite forallb_forall in T. specialize (T (lo, hi) Hr). cbn in T.
  apply orb_true_iff in T. destruct T as [T|T]; apply N.ltb_lt in T; lia.
Qed.

(** Every decimal is a word character. *)
Lemma decimal_isword (c : N) : isdecimal c = true -> isword c = true.
Proof.
  assert (T : forallb (fun z =>
               existsb (fun r => (fst r <=? z) && (z + 9 <=? snd r)) alnum_ranges)
             nd_zeros = true) by (vm_compute; reflexivity).
  intros H. apply isdecimal_todecimal in H. destruct H as [d H].
  apply todecimal_inv in H. destruct H as (z & Hin & H1 & H2 & _).
  rewrite forallb_forall in T. specialize (T z Hin).
  apply existsb_exists in T. destruct T as ([lo hi] & Hr & Hb). cbn in Hb.
  apply andb_true_iff in Hb. destruct Hb as [H3 H4].
  apply N.leb_le in H3. apply N.leb_le in H4.
  unfold isword, isalnum, in_ranges. apply orb_true_iff. left.
  apply existsb_exists. exists (lo, hi). split; [assumption|]. cbn.
  apply andb_true_iff. split; apply N.leb_le; lia.
Qed.

End UnicodeFacts.

(** ** [int] on decimal digits *)

Module PyIntFacts.
Import Unicode UnicodeFacts PyInt.
Local Open Scope N_scope.

(** One decimal character, ASCII or not, is rewritten to its ASCII digit. *)
Lemma transform_decimal (c d : N) (r : str) :
  todecimal c = Some d -> transform (c :: r) = (48 + d) :: transform r.
Proof.
  intros H. cbn [transform]. destruct (c <? 127) eqn:E.
  - apply N.ltb_lt in E.
    destruct (todecimal_ascii c d H) as [_ ->]; [lia | reflexivity].
  - rewrite (decimal_not_space c d H), H. reflexivity.
Qed.

Lemma to_ascii_two (c1 c2 d1 d2 : N) :
  todecimal c1 = Some d1 -> todecimal c2 = Some d2 ->
  to_ascii [c1; c2] = [48 + d1; 48 + d2].
Proof.
  intros H1 H2. unfold to_ascii.
  destruct (forallb _ [c1; c2]) eqn:E.
  - cbn in E. rewrite andb_true_r in E. apply andb_true_iff in E.
    destruct E as [E1 E2]. apply N.ltb_lt in E1. apply N.ltb_lt in E2.
    destruct (todecimal_ascii c1 d1 H1 E1) as [_ ->].
    destruct (todecimal_ascii c2 d2 H2 E2) as [_ ->]. reflexivity.
  - rewrite (transform_decimal c1 d1 _ H1), (transform_decimal c2 d2 _ H2). reflexivity.
Qed.

Ltac split_digit d H :=
  let K := fresh in
  assert (K : d = 0 \/ d = 1 \/ d = 2 \/ d = 3 \/ d = 4 \/
              d = 5 \/ d = 6 \/ d = 7 \/ d = 8 \/ d = 9) by lia;
  clear H;
  repeat (destruct K as [K|K]; [subst d|]); [..|subst d].

Lemma from_string_two (d1 d2 : N) :
  d1 <= 9 -> d2 <= 9 ->
  from_string [48 + d1; 48 + d2] = Some (Z.of_N (10 * d1 + d2)).
Proof.
  intros H1 H2. split_digit d1 H1; split_digit d2 H2; reflexivity.
Qed.

(** [int] of two decimal characters: ten times the first plus the second. *)
Lemma int_two_decimals (c1 c2 d1 d2 : N) :
  todecimal c1 = Some d1 -> todecimal c2 = Some d2 ->
  int [c1; c2] = Ok (Z.of_N (10 * d1 + d2)).
Proof.
  intros H1 H2. unfold int. rewrite (to_ascii_two c1 c2 d1 d2 H1 H2).
  rewrite from_string_two by (eapply todecimal_le9; eassumption).
  reflexivity.
Qed.

End PyIntFacts.

(** ** The validator *)

Section Validator.
Import Unicode UnicodeFacts.

(** When the [try] block accepts, the four numeric fields were read and
    every check passed. *)
Lemma validar_corpo_true (chave : str) :
  validar_corpo chave = Ok true ->
  exists uf ano mes modelo,
    PyInt.int (slice chave 0 2) = Ok uf /\
    PyInt.int (slice chave 2 4) = Ok ano /\
    PyInt.int (slice chave 4 6) = Ok mes /\
    PyInt.int (slice chave 20 22) = Ok modelo /\
    (10 <= uf <= 53)%Z /\ (1 <= mes <= 12)%Z /\ (0 <= ano <= 99)%Z /\
    2 < len_set (slice chave 6 20) /\
    List.In modelo modelos_validos /\
    5 < len_set chave.
Proof.
  unfold validar_corpo.
  destruct (PyInt.int (slice chave 0 2)) as [uf|] eqn:Euf; cbn [bind]; [|discriminate].
  destruct ((uf <? 10)%Z || (uf >? 53)%Z) eqn:Cuf; [discriminate|].
  destruct (PyInt.int (slice chave 2 4)) as [ano|] eqn:Eano; cbn [bind]; [|discriminate].
  destruct (PyInt.int (slice chave 4 6)) as [mes|] eqn:Emes; cbn [bind]; [|discriminate].
  destruct ((mes <? 1)%Z || (mes >? 12)%Z || (ano <? 0)%Z || (ano >? 99)%Z) eqn:Cd;
    [discriminate|].
  destruct (len_set (slice chave 6 20) <=? 2) eqn:Cc; [discriminate|].
  destruct (PyInt.int (slice chave 20 22)) as [modelo|] eqn:Emod; cbn [bind]; [|discriminate].
  destruct (existsb (Z.eqb modelo) modelos_validos) eqn:Cm; cbn [negb]; [|discriminate].
  destruct (len_set chave <=? 5) eqn:Cl; [discriminate|].
  intros _. exists uf, ano, mes, modelo.
  apply orb_false_iff in Cuf. destruct Cuf as [U1 U2].
  repeat (apply orb_false_iff in Cd; destruct Cd as [Cd ?]).
  apply Nat.leb_gt in Cc. apply Nat.leb_gt in Cl.
  apply existsb_exists in Cm. destruct Cm as (m & Hm & Em).
  apply Z.eqb_eq in Em. subst m.
  repeat split; try assumption; lia.
Qed.

(** The validator is the 44-character test and then the disjunction of its
    two paths. *)
Lemma validar_disjuncao (chave : str) :
  validar_chave_nfe chave =
  Ok (tem_44 chave && (caminho_prefixo_50 chave || caminho_geral chave)).
Proof.
  unfold validar_chave_nfe, tem_44, caminho_prefixo_50, caminho_geral, try_except.
  destruct (List.length chave =? 44); cbn [negb andb]; [|reflexivity].
  destruct (startswith chave (py "50") && (5 <? len_set chave)); cbn [orb];
    [reflexivity|].
  destruct (validar_corpo chave); reflexivity.
Qed.

Lemma validar_true_inv (chave : str) :
  validar_chave_nfe chave = Ok true ->
  List.length chave = 44 /\
  (caminho_prefixo_50 chave = true \/ validar_corpo chave = Ok true).
Proof.
  rewrite validar_disjuncao. intros [= H].
  apply andb_true_iff in H. destruct H as [H44 H].
  split; [now apply Nat.eqb_eq in H44|].
  apply orb_true_iff in H. destruct H as [H|H]; [now left|right].
  unfold caminho_geral in H. destruct (validar_corpo chave) as [b|]; congruence.
Qed.

(** The 50-prefix path accepts whatever else the string holds. *)
Lemma prefixo_50_aceita (chave : str) :
  List.length chave = 44 ->
  startswith chave (py "50") = true ->
  5 < len_set chave ->
  validar_chave_nfe chave = Ok true.
Proof.
  intros H44 H50 Hset. rewrite validar_disjuncao.
  unfold tem_44, caminho_prefixo_50. rewrite H44, H50.
  apply Nat.ltb_lt in Hset. rewrite Hset. reflexivity.
Qed.

(** Two characters of a long enough string, read as a slice. *)
Lemma slice_two (P : char -> Prop) (s : str) (a : nat) :
  a + 2 <= List.length s -> Forall P s ->
  exists c1 c2, slice s a (a + 2) = [c1; c2] /\ P c1 /\ P c2.
Proof.
  intros Hlen HP. unfold slice.
  replace (a + 2 - a) with 2 by lia.
  assert (Hs : Forall P (skipn a s)).
  { apply Forall_forall. intros x Hx. rewrite Forall_forall in HP.
    apply HP. rewrite <- (firstn_skipn a s). apply in_or_app. now right. }
  assert (Hl : 2 <= List.length (skipn a s)) by (rewrite length_skipn; lia).
  destruct (skipn a s) as [|c1 [|c2 r]]; cbn in Hl; try lia.
  exists c1, c2. inversion Hs as [|? ? P1 Hs']. inversion Hs' as [|? ? P2 _].
  cbn. auto.
Qed.

(** The year of an all-digit key is read as a number from 0 to 99. *)
Lemma ano_entre_0_e_99 (chave : str) :
  4 <= List.length chave ->
  Forall (fun c => isdecimal c = true) chave ->
  exists ano : Z, PyInt.int (slice chave 2 4) = Ok ano /\ (0 <= ano <= 99)%Z.
Proof.
  intros Hlen Hdig.
  destruct (slice_two (fun c => isdecimal c = true) chave 2)
    as (c1 & c2 & Hs & P1 & P2); [lia | assumption |].
  change (2 + 2) with 4 in Hs. rewrite Hs.
  apply isdecimal_todecimal in P1, P2.
  destruct P1 as [d1 P1]. destruct P2 as [d2 P2].
  exists (Z.of_N (10 * d1 + d2)).
  pose proof (todecimal_le9 c1 d1 P1). pose proof (todecimal_le9 c2 d2 P2).
  split; [exact (PyIntFacts.int_two_decimals c1 c2 d1 d2 P1 P2) | lia].
Qed.

End Validator.

(** ** The validator: accepted and rejected strings *)

(** C4: a 44-digit string that starts with "50" and has at least 6 distinct
    digits is accepted by [validar_chave_nfe], whatever its document-model
    field holds; and the validator as a whole is the length test followed by
    the disjunction of the 50-prefix path and the general structural path. *)
Theorem C4_prefixo_50_disjuncao :
  (forall chave : str,
      List.length chave = 44 ->
      Forall (fun c => Unicode.is_ascii_digit c = true) chave ->
      startswith chave (py "50") = true ->
      6 <= len_set chave ->
      validar_chave_nfe chave = Ok true) /\
  (forall chave : str,
      validar_chave_nfe chave =
      Ok (tem_44 chave && (caminho_prefixo_50 chave || caminho_geral chave))).
Proof.
  split.
  - intros chave H44 _ H50 Hset. apply prefixo_50_aceita; [assumption..|lia].
  - exact validar_disjuncao.
Qed.

(** The key "50250812345678012345006789012345678901234567" has the model
    field 00: the general path rejects it and the validator accepts it. *)
Lemma C4_witness :
  PyInt.int (slice chave_50_modelo_00 20 22) = Ok 0%Z /\
  caminho_geral chave_50_modelo_00 = false /\
  validar_chave_nfe chave_50_modelo_00 = Ok true.
Proof.
  split; [reflexivity|]. split; [reflexivity|].
  apply (proj1 C4_prefixo_50_disjuncao).
  - reflexivity.
  - repeat constructor.
  - reflexivity.
  - vm_compute. lia.
Defined.

(** C7: on every string [validar_chave_nfe] returns a boolean and raises
    nothing; an exception raised inside the [try] block makes it return
    [False]; in particular, when the 50-prefix path has not accepted, a
    numeric field (federative unit, year, month or model) on which [int]
    raises makes the validator return [False]. *)
Theorem C7_validar_nunca_propaga :
  (forall chave : str, exists b : bool, validar_chave_nfe chave = Ok b) /\
  (forall (chave : str) (e : exc),
      caminho_prefixo_50 chave = false ->
      validar_corpo chave = Raise e ->
      validar_chave_nfe chave = Ok false) /\
  (forall (chave : str) (a b : nat) (e : exc),
      List.In (a, b) campos_numericos ->
      caminho_prefixo_50 chave = false ->
      PyInt.int (slice chave a b) = Raise e ->
      validar_chave_nfe chave = Ok false).
Proof.
  split; [|split].
  - intros chave. rewrite validar_disjuncao. eauto.
  - intros chave e H50 Hraise. rewrite validar_disjuncao, H50.
    unfold caminho_geral. rewrite Hraise. now rewrite andb_false_r.
  - intros chave a b e Hin H50 Hraise. rewrite validar_disjuncao, H50.
    cbn [orb]. unfold caminho_geral.
    destruct (validar_corpo chave) as [[|]|] eqn:E;
      try (now rewrite andb_false_r).
    apply validar_corpo_true in E.
    destruct E as (uf & ano & mes & modelo & E1 & E2 & E3 & E4 & _).
    cbn in Hin.
    destruct Hin as [[= <- <-]|[[= <- <-]|[[= <- <-]|[[= <- <-]|[]]]]];
      congruence.
Qed.

(** In "35a508...", the year field "a5" is not a number: the [try] block
    raises and the validator returns [False]. *)
Lemma C7_witness :
  PyInt.int (slice chave_ano_letra 2 4) = Raise ValueError /\
  validar_corpo chave_ano_letra = Raise ValueError /\
  validar_chave_nfe chave_ano_letra = Ok false.
Proof.
  split; [reflexivity|]. split; [reflexivity|].
  apply (proj2 (proj2 C7_validar_nunca_propaga) chave_ano_letra 2 4 ValueError).
  - cbn. auto.
  - reflexivity.
  - reflexivity.
Defined.

(** C8: every string that [validar_chave_nfe] accepts has at least 6
    distinct characters, on either acceptance path. *)
Theorem C8_aceita_seis_distintos (chave : str) :
  validar_chave_nfe chave = Ok true -> 6 <= len_set chave.
Proof.
  intros H. apply validar_true_inv in H. destruct H as [_ [H|H]].
  - unfold caminho_prefixo_50 in H. apply andb_true_iff in H.
    destruct H as [_ H]. apply Nat.ltb_lt in H. lia.
  - apply validar_corpo_true in H.
    destruct H as (uf & ano & mes & modelo & H). intuition lia.
Qed.

(** The key "35250812345678012345556789012345678901234567" is accepted and
    has ten distinct digits. *)
Lemma C8_witness :
  validar_chave_nfe chave_modelo_55 = Ok true /\ 6 <= len_set chave_modelo_55.
Proof.
  split; [reflexivity|].
  apply (C8_aceita_seis_distintos chave_modelo_55). reflexivity.
Defined.

(** C9: any 44-character string that starts with "50" and has more than 5
    distinct characters is accepted, digits or not; and there is such a
    string with characters that are no digits, on which the numeric parsing
    of the general path would raise. *)
Theorem C9_aceita_nao_digitos :
  (forall chave : str,
      List.length chave = 44 ->
      startswith chave (py "50") = true ->
      5 < len_set chave ->
      validar_chave_nfe chave = Ok true) /\
  (exists chave : str,
      List.length chave = 44 /\
      (exists c, List.In c chave /\ Unicode.isdecimal c = false) /\
      validar_corpo chave = Raise ValueError /\
      validar_chave_nfe chave = Ok true).
Proof.
  split.
  - exact prefixo_50_aceita.
  - exists chave_50_letras. split; [reflexivity|]. split.
    + exists 65%N. split; [|reflexivity]. cbn. auto.
    + split; reflexivity.
Qed.

(** "50" followed by the capital letters and sixteen small ones. *)
Lemma C9_witness : validar_chave_nfe chave_50_letras = Ok true.
Proof.
  apply (proj1 C9_aceita_nao_digitos chave_50_letras).
  - reflexivity.
  - reflexivity.
  - vm_compute. lia.
Defined.

(** C10: in a 44-character string of decimal digits the year field is read
    as an integer between 0 and 99, so the year part of the date test of
    line 84 is false and the test amounts to the month bound. *)
Theorem C10_ano_sempre_valido (chave : str) :
  List.length chave = 44 ->
  Forall (fun c => Unicode.isdecimal c = true) chave ->
  exists ano : Z,
    PyInt.int (slice chave 2 4) = Ok ano /\
    (0 <= ano <= 99)%Z /\
    ((ano <? 0) || (ano >? 99))%Z = false /\
    forall mes : Z, aamm_invalido mes ano = ((mes <? 1) || (mes >? 12))%Z.
Proof.
  intros H44 Hdig.
  destruct (ano_entre_0_e_99 chave) as (ano & Hano & Ha); [lia | assumption |].
  assert (B : ((ano <? 0) || (ano >? 99))%Z = false).
  { apply orb_false_iff. split; [|rewrite Z.gtb_ltb]; apply Z.ltb_ge; lia. }
  exists ano. split; [exact Hano|]. split; [exact Ha|]. split; [exact B|].
  intros mes. unfold aamm_invalido. rewrite <- orb_assoc, B. apply orb_false_r.
Qed.

(** The year field of "3525 08..." reads 25. *)
Lemma C10_witness :
  exists ano : Z,
    PyInt.int (slice chave_modelo_55 2 4) = Ok ano /\
    (0 <= ano <= 99)%Z /\
    ((ano <? 0) || (ano >? 99))%Z = false /\
    forall mes : Z, aamm_invalido mes ano = ((mes <? 1) || (mes >? 12))%Z.
Proof.
  apply (C10_ano_sempre_valido chave_modelo_55).
  - reflexivity.
  - repeat constructor.
Defined.

(** ** The matcher *)

Section Matcher.
Import Unicode UnicodeFacts.

Lemma prev_after_app (prev : option char) (s t : str) :
  prev_after prev (s ++ t) = prev_after (prev_after prev s) t.
Proof. apply fold_left_app. Qed.

Lemma scan_S (p : pattern) (k : nat) (prev : option char) (c : char) (r : str) (pos : nat) :
  scan p (S k) prev (c :: r) pos = scan p k (Some c) r (S pos).
Proof. reflexivity. Qed.

Lemma scan_0_nil (p : pattern) (prev : option char) (pos : nat) :
  scan p 0 prev [] pos =
  match exec p pos false [] prev [] pos with
  | None => []
  | Some (e, mk) =>
      if e =? pos then
        Span pos pos mk ::
        match exec p pos true [] prev [] pos with
        | Some (e2, mk2) => [Span pos e2 mk2]
        | None => []
        end
      else [Span pos e mk]
  end.
Proof. reflexivity. Qed.

Lemma scan_0_cons (p : pattern) (prev : option char) (c : char) (r : str) (pos : nat) :
  scan p 0 prev (c :: r) pos =
  match exec p pos false [] prev (c :: r) pos with
  | None => scan p 0 (Some c) r (S pos)
  | Some (e, mk) =>
      if e =? pos then
        Span pos pos mk ::
        match exec p pos true [] prev (c :: r) pos with
        | Some (e2, mk2) => Span pos e2 mk2 :: scan p (e2 - S pos) (Some c) r (S pos)
        | None => scan p 0 (Some c) r (S pos)
        end
      else Span pos e mk :: scan p (e - S pos) (Some c) r (S pos)
  end.
Proof.
  cbn [scan]. rewrite Nat.sub_diag. reflexivity.
Qed.

(** Skipping the characters of a previous match. *)
Lemma scan_skip (p : pattern) (s rest : str) (prev : option char) (pos : nat) :
  scan p (List.length s) prev (s ++ rest) pos =
  scan p 0 (prev_after prev s) rest (pos + List.length s).
Proof.
  revert prev pos. induction s as [|c s IH]; intros prev pos.
  - cbn [List.length app prev_after fold_left]. now rewrite Nat.add_0_r.
  - cbn [List.length app]. rewrite scan_S, IH. cbn [prev_after fold_left].
    f_equal. lia.
Qed.

End Matcher.

(** ** The normaliser *)

Section Normaliser.
Import Unicode.

Lemma nao_digito_match (c : char) :
  charset_match (Charset true [Range 48%N 57%N]) c = negb (is_ascii_digit c).
Proof.
  unfold charset_match, is_ascii_digit. cbn. now rewrite orb_false_r.
Qed.

Lemma slice_pending (done rest : str) (from : nat) :
  from <= List.length done ->
  slice (done ++ rest) from (List.length done) = skipn from done.
Proof.
  intros H. unfold slice. rewrite skipn_app, firstn_app.
  rewrite length_skipn. replace (from - List.length done) with 0 by lia.
  rewrite Nat.sub_diag. cbn [skipn firstn]. rewrite app_nil_r.
  apply firstn_all2. rewrite length_skipn. lia.
Qed.

(** [re.sub] with [[^0-9]]: [from] is where the text not yet copied
    starts, [done] the text already scanned. *)
Lemma sub_nao_digito (rest done : str) (from : nat) (prev : option char) :
  from <= List.length done ->
  sub_pieces (done ++ rest) from (scan NAO_DIGITO 0 prev rest (List.length done)) =
  skipn from done ++ filter is_ascii_digit rest.
Proof.
  revert done from prev. induction rest as [|c r IH]; intros done from prev Hle.
  - cbn. rewrite !app_nil_r. reflexivity.
  - assert (Hdone : done ++ c :: r = (done ++ [c]) ++ r)
      by (rewrite <- app_assoc; reflexivity).
    assert (Hlen : S (List.length done) = List.length (done ++ [c]))
      by (rewrite length_app; cbn; lia).
    rewrite scan_0_cons. unfold NAO_DIGITO at 1. cbn [exec].
    rewrite nao_digito_match. cbn [filter].
    destruct (is_ascii_digit c); cbn [negb andb].
    + rewrite Hdone, Hlen, IH by (rewrite length_app; cbn; lia).
      rewrite skipn_app. replace (from - List.length done) with 0 by lia.
      cbn [skipn]. rewrite <- app_assoc. reflexivity.
    + replace (S (List.length done) =? List.length done) with false
        by (symmetry; apply Nat.eqb_neq; lia).
      rewrite Nat.sub_diag. cbn [sub_pieces m_start m_end].
      rewrite slice_pending by assumption. f_equal.
      rewrite Hdone, Hlen, IH by lia.
      rewrite skipn_all. reflexivity.
Qed.

(** [limpar_chave] keeps the characters [0] to [9], in order. *)
Lemma limpar_chave_filter (chave : str) :
  limpar_chave chave = filter is_ascii_digit chave.
Proof.
  unfold limpar_chave, sub_empty, finditer.
  exact (sub_nao_digito chave [] 0 None (Nat.le_refl 0)).
Qed.

Lemma filter_idem (A : Type) (f : A -> bool) (l : list A) :
  filter f (filter f l) = filter f l.
Proof.
  induction l as [|a l IH]; [reflexivity|]. cbn.
  destruct (f a) eqn:E; cbn; rewrite ?E, IH; reflexivity.
Qed.

End Normaliser.

(** C6: [limpar_chave] returns exactly the ASCII decimal digits of its
    argument, in their order, every other character removed; applying it
    twice is the same as applying it once; the empty string is mapped to
    the empty string. *)
Theorem C6_limpar_chave :
  (forall s : str, limpar_chave s = filter Unicode.is_ascii_digit s) /\
  (forall s : str, limpar_chave (limpar_chave s) = limpar_chave s) /\
  limpar_chave [] = [].
Proof.
  split; [exact limpar_chave_filter|]. split.
  - intros s. rewrite !limpar_chave_filter. apply filter_idem.
  - reflexivity.
Qed.

(** ** Greedy repetition and the digit-run pattern *)

Section DigitRuns.
Import Unicode UnicodeFacts.

Lemma cs_digit_match (c : char) : charset_match cs_digit c = isdecimal c.
Proof. unfold charset_match. cbn. now rewrite orb_false_r. Qed.

(** After a non-empty stretch of digits the previous character is a word
    character. *)
Lemma word_after_digits (s : str) (prev : option char) :
  s <> [] -> Forall (fun c => isdecimal c = true) s -> word_at (prev_after prev s) = true.
Proof.
  revert prev. induction s as [|c s IH]; intros prev Hne Hd; [congruence|].
  inversion Hd as [|? ? Hc Hs]; subst. destruct s as [|c' s'].
  - cbn. now apply decimal_isword.
  - cbn [prev_after fold_left]. apply (IH (Some c)); [discriminate | assumption].
Qed.

(** A repetition whose class matches all of [run], and nothing after it,
    hands the tail of the pattern the position after [run] first. *)
Lemma repeat_one_greedy (A : Type) (cs : charset) (mn : nat)
    (k : option char -> str -> nat -> option A) (run post : str) (res : A) :
  forall (cnt : nat) (prev : option char) (pos : nat),
  Forall (fun c => charset_match cs c = true) run ->
  match post with [] => True | c :: _ => charset_match cs c = false end ->
  mn <= cnt + List.length run ->
  k (prev_after prev run) post (pos + List.length run) = Some res ->
  repeat_one cs mn None k cnt prev (run ++ post) pos = Some res.
Proof.
  induction run as [|c run IH]; intros cnt prev pos Hrun Hpost Hmn Hk.
  - cbn [List.length prev_after fold_left app] in *.
    rewrite Nat.add_0_r in Hmn, Hk. apply Nat.leb_le in Hmn.
    destruct post as [|c r]; cbn [repeat_one]; [now rewrite Hmn|].
    rewrite Hpost. cbn [andb]. now rewrite Hmn.
  - inversion Hrun as [|? ? Hc Hr]; subst.
    cbn [app repeat_one]. rewrite Hc. cbn [below andb].
    rewrite (IH (S cnt) (Some c) (S pos)); [reflexivity | assumption..| |].
    + cbn [List.length] in Hmn. lia.
    + cbn [List.length prev_after fold_left] in Hk.
      now replace (S pos + List.length run) with (pos + S (List.length run)) by lia.
Qed.

(** What a successful repetition consumed. *)
Lemma repeat_one_inv (A : Type) (cs : charset) (mn : nat) (mx : option nat)
    (k : option char -> str -> nat -> option A) (rest : str) (res : A) :
  forall (cnt : nat) (prev : option char) (pos : nat),
  repeat_one cs mn mx k cnt prev rest pos = Some res ->
  exists n,
    n <= List.length rest /\
    Forall (fun c => charset_match cs c = true) (firstn n rest) /\
    mn <= cnt + n /\
    k (prev_after prev (firstn n rest)) (skipn n rest) (pos + n) = Some res.
Proof.
  assert (Hstop : forall cnt prev pos r,
             (if mn <=? cnt then k prev r pos else None) = Some res ->
             exists n,
               n <= List.length r /\
               Forall (fun c => charset_match cs c = true) (firstn n r) /\
               mn <= cnt + n /\
               k (prev_after prev (firstn n r)) (skipn n r) (pos + n) = Some res).
  { intros cnt prev pos r H. destruct (mn <=? cnt) eqn:E; [|discriminate].
    apply Nat.leb_le in E. exists 0. cbn. rewrite !Nat.add_0_r.
    repeat split; try lia; auto. }
  induction rest as [|c r IH]; intros cnt prev pos H.
  - cbn [repeat_one] in H. now apply Hstop.
  - cbn [repeat_one] in H.
    destruct (charset_match cs c && below mx cnt) eqn:E; [|now apply Hstop].
    destruct (repeat_one cs mn mx k (S cnt) (Some c) r (S pos)) as [res'|] eqn:R;
      [|now apply Hstop].
    injection H as ->. apply IH in R.
    destruct R as (n & Hn & Hall & Hmn & Hk).
    apply andb_true_iff in E. destruct E as [Ec _].
    exists (S n). cbn [List.length firstn skipn prev_after fold_left].
    repeat split; [lia | now constructor | lia |].
    now replace (pos + S n) with (S pos + n) by lia.
Qed.

Lemma exec_boundary (start : nat) (ma : bool) (mk : marks) (prev : option char)
    (rest : str) (pos : nat) :
  exec [Op_at_boundary] start ma mk prev rest pos =
  if xorb (word_at prev) (word_at (hd_error rest))
  then (if ma && (pos =? start) then None else Some (pos, mk))
  else None.
Proof. reflexivity. Qed.

Lemma exec_sequencia (start : nat) (ma : bool) (mk : marks) (prev : option char)
    (rest : str) (pos : nat) :
  exec PADRAO_SEQUENCIA start ma mk prev rest pos =
  if xorb (word_at prev) (word_at (hd_error rest))
  then repeat_one cs_digit 8 None (exec [Op_at_boundary] start ma mk) 0 prev rest pos
  else None.
Proof. reflexivity. Qed.

(** [\b\d{8,}\b] does not match where no digit stands. *)
Lemma exec_sequencia_nao_digito (start : nat) (ma : bool) (mk : marks)
    (prev : option char) (rest : str) (pos : nat) :
  match rest with [] => True | c :: _ => isdecimal c = false end ->
  exec PADRAO_SEQUENCIA start ma mk prev rest pos = None.
Proof.
  intros H. rewrite exec_sequencia.
  destruct (xorb _ _); [|reflexivity].
  destruct rest as [|c r]; cbn [repeat_one]; [reflexivity|].
  rewrite cs_digit_match, H. reflexivity.
Qed.

(** A match of [\b\d{8,}\b] is made of at least eight digits. *)
Lemma exec_sequencia_inv (start : nat) (ma : bool) (mk mk' : marks)
    (prev : option char) (rest : str) (pos e : nat) :
  exec PADRAO_SEQUENCIA start ma mk prev rest pos = Some (e, mk') ->
  exists n, e = pos + n /\ 8 <= n /\ n <= List.length rest /\
            Forall (fun c => isdecimal c = true) (firstn n rest).
Proof.
  rewrite exec_sequencia. destruct (xorb _ _); [|discriminate].
  intros H. apply repeat_one_inv in H. destruct H as (n & Hn & Hall & Hmn & Hk).
  rewrite exec_boundary in Hk. destruct (xorb _ _); [|discriminate].
  destruct (ma && _); [discriminate|]. injection Hk as <- _.
  exists n. repeat split; [lia | assumption |].
  revert Hall. apply Forall_impl. intros c Hc. now rewrite <- cs_digit_match.
Qed.

(** A run of at least eight digits between two word boundaries is matched
    whole. *)
Lemma exec_sequencia_run (run post : str) (prev : option char) (pos : nat) :
  Forall (fun c => isdecimal c = true) run ->
  8 <= List.length run ->
  word_at prev = false ->
  word_at (hd_error post) = false ->
  exec PADRAO_SEQUENCIA pos false [] prev (run ++ post) pos =
  Some (pos + List.length run, []).
Proof.
  intros Hrun Hlen Hprev Hpost.
  assert (Hne : run <> []) by (intros ->; cbn in Hlen; lia).
  rewrite exec_sequencia.
  assert (Hhd : word_at (hd_error (run ++ post)) = true).
  { destruct run as [|c r]; [congruence|]. inversion Hrun; subst.
    cbn. now apply decimal_isword. }
  rewrite Hprev, Hhd. cbn [xorb].
  apply repeat_one_greedy.
  - revert Hrun. apply Forall_impl. intros c Hc. now rewrite cs_digit_match.
  - destruct post as [|c r]; [exact I|]. rewrite cs_digit_match.
    cbn in Hpost. destruct (isdecimal c) eqn:E; [|reflexivity].
    apply decimal_isword in E. congruence.
  - lia.
  - rewrite exec_boundary, (word_after_digits run prev Hne Hrun), Hpost.
    reflexivity.
Qed.

(** No match in a text without digit. *)
Lemma scan_sequencia_nao_digitos (rest : str) :
  Forall (fun c => isdecimal c = false) rest ->
  forall (skip : nat) (prev : option char) (pos : nat),
  scan PADRAO_SEQUENCIA skip prev rest pos = [].
Proof.
  induction 1 as [|c r Hc Hr IH]; intros skip prev pos.
  - destruct skip; [|reflexivity].
    rewrite scan_0_nil, exec_sequencia_nao_digito; [reflexivity | exact I].
  - destruct skip; [|rewrite scan_S; apply IH].
    rewrite scan_0_cons, exec_sequencia_nao_digito; [apply IH | exact Hc].
Qed.

(** The search walks over a stretch without digit. *)
Lemma scan_sequencia_pre (pre rest : str) :
  Forall (fun c => isdecimal c = false) pre ->
  forall (prev : option char) (pos : nat),
  scan PADRAO_SEQUENCIA 0 prev (pre ++ rest) pos =
  scan PADRAO_SEQUENCIA 0 (prev_after prev pre) rest (pos + List.length pre).
Proof.
  induction 1 as [|c r Hc Hr IH]; intros prev pos.
  - cbn. now rewrite Nat.add_0_r.
  - cbn [app]. rewrite scan_0_cons, exec_sequencia_nao_digito by exact Hc.
    rewrite IH. cbn [prev_after fold_left List.length]. f_equal. lia.
Qed.

Lemma slice_middle (pre mid post : str) :
  slice (pre ++ mid ++ post) (List.length pre) (List.length pre + List.length mid) = mid.
Proof.
  unfold slice. rewrite skipn_app, skipn_all, Nat.sub_diag. cbn [skipn app].
  replace (List.length pre + List.length mid - List.length pre)
    with (List.length mid) by lia.
  rewrite firstn_app, firstn_all, Nat.sub_diag. cbn. apply app_nil_r.
Qed.

(** The only match in a text whose digits are one run between two word
    boundaries is the run. *)
Lemma finditer_sequencia_run (pre run post : str) :
  Forall (fun c => isdecimal c = false) pre ->
  Forall (fun c => isdecimal c = false) post ->
  Forall (fun c => isdecimal c = true) run ->
  8 <= List.length run ->
  word_at (prev_after None pre) = false ->
  word_at (hd_error post) = false ->
  finditer PADRAO_SEQUENCIA (pre ++ run ++ post) =
  [Span (List.length pre) (List.length pre + List.length run) []].
Proof.
  intros Hpre Hpost Hrun Hlen Hb1 Hb2. unfold finditer.
  rewrite scan_sequencia_pre by assumption. cbn [Nat.add].
  pose proof (exec_sequencia_run run post (prev_after None pre)
                (List.length pre) Hrun Hlen Hb1 Hb2) as E.
  destruct run as [|c run']; [cbn in Hlen; lia|].
  cbn [app] in *. rewrite scan_0_cons, E.
  replace (List.length pre + List.length (c :: run') =? List.length pre) with false
    by (symmetry; apply Nat.eqb_neq; cbn; lia).
  f_equal.
  replace (List.length pre + List.length (c :: run') - S (List.length pre))
    with (List.length run') by (cbn; lia).
  rewrite scan_skip. now apply scan_sequencia_nao_digitos.
Qed.

(** A run between two word boundaries is among the matches, whatever comes
    before and after. *)
Lemma scan_sequencia_finds (run post : str) :
  Forall (fun c => isdecimal c = true) run ->
  8 <= List.length run ->
  word_at (hd_error post) = false ->
  forall (pre : str) (skip : nat) (prev : option char) (pos : nat),
  word_at (prev_after prev pre) = false ->
  skip <= List.length pre ->
  List.In (Span (pos + List.length pre) (pos + List.length pre + List.length run) [])
          (scan PADRAO_SEQUENCIA skip prev (pre ++ run ++ post) pos).
Proof.
  intros Hrun Hlen Hpost.
  induction pre as [|c pre IH]; intros skip prev pos Hprev Hskip.
  - cbn [List.length] in *. assert (skip = 0) by lia. subst skip.
    cbn [app prev_after fold_left] in *. rewrite !Nat.add_0_r.
    pose proof (exec_sequencia_run run post prev pos Hrun Hlen Hprev Hpost) as E.
    destruct run as [|d run']; [cbn in Hlen; lia|].
    cbn [app] in *. rewrite scan_0_cons, E.
    replace (pos + List.length (d :: run') =? pos) with false
      by (symmetry; apply Nat.eqb_neq; cbn; lia).
    now left.
  - cbn [prev_after fold_left] in Hprev. cbn [List.length] in Hskip.
    replace (pos + List.length (c :: pre)) with (S pos + List.length pre)
      by (cbn; lia).
    cbn [app]. destruct skip as [|k].
    + rewrite scan_0_cons.
      destruct (exec PADRAO_SEQUENCIA pos false [] prev (c :: pre ++ run ++ post) pos)
        as [[e mk]|] eqn:E; [|apply IH; [assumption | lia]].
      apply exec_sequencia_inv in E. destruct E as (n & -> & Hn8 & _ & Hall).
      assert (Hn : n <= List.length pre).
      { destruct (Nat.le_gt_cases n (List.length pre)) as [|Hgt]; [assumption|].
        exfalso.
        change (c :: pre ++ run ++ post) with ((c :: pre) ++ run ++ post) in Hall.
        rewrite firstn_app in Hall. apply Forall_app in Hall.
        destruct Hall as [Hall _].
        rewrite firstn_all2 in Hall by (cbn; lia).
        pose proof (word_after_digits (c :: pre) prev ltac:(discriminate) Hall) as W.
        cbn [prev_after fold_left] in W. congruence. }
      replace (pos + n =? pos) with false by (symmetry; apply Nat.eqb_neq; lia).
      right. apply IH; [assumption | lia].
    + rewrite scan_S. apply IH; [assumption | lia].
Qed.

End DigitRuns.

(** ** Sets and the aggregator *)

Section Aggregator.
Import Unicode UnicodeFacts.



Lemma add_all_in (cs : list str) (s : conjunto) (c : str) :
  List.In c (add_all cs s) <-> List.In c cs \/ List.In c s.
Proof.
  unfold add_all. revert s. induction cs as [|a cs IH]; intros s; cbn.
  - tauto.
  - rewrite IH. unfold add. rewrite set_add_iff. intuition congruence.
Qed.

Lemma add_all_nodup (cs : list str) (s : conjunto) :
  NoDup s -> NoDup (add_all cs s).
Proof.
  unfold add_all. revert s. induction cs as [|a cs IH]; intros s H; cbn.
  - assumption.
  - apply IH. now apply set_add_nodup.
Qed.



(** The validation loop never raises: it keeps the candidates the
    validator accepts. *)
Lemma validar_todos_ok (cands : list str) (chaves : conjunto) :
  validar_todos cands chaves = Ok (add_all (filter aceita cands) chaves).
Proof.
  revert chaves. induction cands as [|c r IH]; intros chaves; [reflexivity|].
  cbn [validar_todos filter]. unfold aceita at 1.
  destruct (tem_44 c) eqn:E44; cbn [andb]; [|apply IH].
  rewrite validar_disjuncao, E44. cbn [andb bind]. rewrite IH.
  destruct (caminho_prefixo_50 c || caminho_geral c); reflexivity.
Qed.

Lemma encontrar_ok (texto : str) :
  encontrar_chaves_acesso texto = Ok (add_all (filter aceita (candidatos texto)) []).
Proof. apply validar_todos_ok. Qed.

Lemma aceita_validar (c : str) : aceita c = true <-> validar_chave_nfe c = Ok true.
Proof.
  rewrite validar_disjuncao. unfold aceita. split; [now intros ->|].
  now intros [= ->].
Qed.

(** What the output holds: the candidates that the validator accepts. *)
Lemma encontrar_in (texto : str) (c : str) :
  List.In c (add_all (filter aceita (candidatos texto)) []) <->
  List.In c (candidatos texto) /\ validar_chave_nfe c = Ok true.
Proof.
  rewrite add_all_in, filter_In, aceita_validar. cbn. tauto.
Qed.

(** A candidate handed to [candidatos.add] by the sliding window is in the
    set. *)
Lemma janelas_em_candidatos (texto : str) (c : str) :
  List.In c (cand_janelas texto) -> List.In c (candidatos texto).
Proof.
  intros H. unfold candidatos. apply add_all_in. now left.
Qed.



(** The key that stands inside a run is one of its windows. *)
Lemma janelas_contem (a chave b : str) :
  List.length chave = 44 -> List.In chave (janelas (a ++ chave ++ b)).
Proof.
  intros H. unfold janelas.
  assert (L : List.length (a ++ chave ++ b) = List.length a + 44 + List.length b)
    by (rewrite !length_app; lia).
  replace (44 <=? List.length (a ++ chave ++ b)) with true
    by (symmetry; apply Nat.leb_le; lia).
  apply in_map_iff. exists (List.length a). split.
  - rewrite <- H. apply slice_middle.
  - apply in_seq. lia.
Qed.

End Aggregator.

(** ** The pipeline *)

Section Pipeline.
Import Unicode UnicodeFacts.

(** A key of federative unit 35 and model 55 with a valid month, a CNPJ
    field of more than two distinct characters and more than five distinct
    digits passes the general path. *)
Lemma chave_35_55_aceita (chave : str) (mes : Z) :
  List.length chave = 44 ->
  Forall (fun c => is_ascii_digit c = true) chave ->
  slice chave 0 2 = py "35" ->
  PyInt.int (slice chave 4 6) = Ok mes -> (1 <= mes <= 12)%Z ->
  2 < len_set (slice chave 6 20) ->
  slice chave 20 22 = py "55" ->
  5 < len_set chave ->
  validar_chave_nfe chave = Ok true.
Proof.
  intros H44 Hdig Huf Hmes Hm Hcnpj Hmod Hset.
  assert (Hdec : Forall (fun c => isdecimal c = true) chave).
  { revert Hdig. apply Forall_impl. exact ascii_digit_isdecimal. }
  destruct (ano_entre_0_e_99 chave) as (ano & Hano & Ha); [lia | assumption |].
  rewrite validar_disjuncao. unfold tem_44. rewrite H44. cbn [Nat.eqb andb].
  apply f_equal, orb_true_iff. right.
  unfold caminho_geral, validar_corpo.
  rewrite Huf, Hano, Hmes, Hmod.
  change (PyInt.int (py "35")) with (Ok 35%Z).
  change (PyInt.int (py "55")) with (Ok 55%Z).
  cbn [bind]. change ((35 <? 10)%Z || (35 >? 53)%Z) with false. cbn iota.
  replace ((mes <? 1)%Z || (mes >? 12)%Z || (ano <? 0)%Z || (ano >? 99)%Z) with false.
  2:{ symmetry. rewrite !orb_false_iff, !Z.gtb_ltb, !Z.ltb_ge. lia. }
  replace (len_set (slice chave 6 20) <=? 2) with false
    by (symmetry; apply Nat.leb_gt; lia).
  change (negb (existsb (Z.eqb 55) modelos_validos)) with false. cbn iota.
  replace (len_set chave <=? 5) with false by (symmetry; apply Nat.leb_gt; lia).
  reflexivity.
Qed.

(** A digit run between two word boundaries is found by [\b\d{8,}\b]. *)
Lemma findall_sequencia_finds (pre run post : str) :
  Forall (fun c => isdecimal c = true) run ->
  8 <= List.length run ->
  word_at (prev_after None pre) = false ->
  word_at (hd_error post) = false ->
  List.In run (findall0 PADRAO_SEQUENCIA (pre ++ run ++ post)).
Proof.
  intros Hrun Hlen Hb1 Hb2. unfold findall0, finditer.
  apply in_map_iff.
  exists (Span (List.length pre) (List.length pre + List.length run) []).
  split; [apply slice_middle|].
  exact (scan_sequencia_finds run post Hrun Hlen Hb2 pre 0 None 0 Hb1 (Nat.le_0_l _)).
Qed.

End Pipeline.

(** ** The pipeline on whole texts *)

(** C1: on the text of 44 full-width digits forming a key of federative
    unit 35 and model 55, [encontrar_chaves_acesso] returns that string,
    whose characters are decimal digits for [\d] and [int] but not the
    ASCII digits 0 to 9. *)
Theorem C1_chave_nao_ascii :
  encontrar_chaves_acesso chave_largura_total = Ok [chave_largura_total] /\
  List.length chave_largura_total = 44 /\
  forallb Unicode.isdecimal chave_largura_total = true /\
  existsb Unicode.is_ascii_digit chave_largura_total = false /\
  limpar_chave chave_largura_total = [].
Proof.
  repeat split; vm_compute; reflexivity.
Qed.

(** C2, as the specification states it, fails: on the text of the scenario the pipeline returns no
    key, and the document is routed to the no-key outcome. *)
Lemma C2_counterexample :
  encontrar_chaves_acesso texto_cenario = Ok [] /\ tem_chave [] = false.
Proof.
  split; vm_compute; reflexivity.
Qed.

(** C2, amended: on the text of the scenario the scanner produces exactly
    one candidate, the concatenation of the 44 digits of the text; its
    document-model field (positions 20 and 21) reads 67, which is none of
    55, 65, 57, 66, so the validator rejects it; the pipeline returns the
    empty list and the document is routed to the no-key outcome. *)
Theorem C2_cenario :
  candidatos texto_cenario = [chave_cenario] /\
  limpar_chave texto_cenario = chave_cenario /\
  List.length chave_cenario = 44 /\
  PyInt.int (slice chave_cenario 20 22) = Ok 67%Z /\
  validar_chave_nfe chave_cenario = Ok false /\
  encontrar_chaves_acesso texto_cenario = Ok [] /\
  tem_chave [] = false.
Proof.
  repeat split; vm_compute; reflexivity.
Qed.


(** With a letter just before the run there is no word boundary, and the
    sliding window produces nothing. *)
Lemma C3_sem_fronteira :
  cand_janelas texto_letra_e_50 = [] /\ candidatos texto_letra_e_50 = [].
Proof.
  split; vm_compute; reflexivity.
Qed.



(** C5, as the specification states it, fails: the text "NFe" followed at once by a valid key
    contains that key, yet no pattern matches (there is no word boundary
    before the digits): the candidate set and the output are empty. *)
Lemma C5_counterexample :
  validar_chave_nfe chave_modelo_55 = Ok true /\
  candidatos texto_nfe_colado = [] /\
  encontrar_chaves_acesso texto_nfe_colado = Ok [].
Proof.
  repeat split; vm_compute; reflexivity.
Qed.

(** A key with the fields of the claim and only four distinct digits is a
    candidate and is not in the output. *)
Lemma C5_poucos_digitos :
  slice chave_4_distintos 0 2 = py "35" /\
  PyInt.int (slice chave_4_distintos 4 6) = Ok 1%Z /\
  len_set (slice chave_4_distintos 6 20) = 3 /\
  slice chave_4_distintos 20 22 = py "55" /\
  len_set chave_4_distintos = 4 /\
  candidatos chave_4_distintos = [chave_4_distintos] /\
  encontrar_chaves_acesso chave_4_distintos = Ok [].
Proof.
  repeat split; vm_compute; reflexivity.
Qed.

(** C5, amended: when a text contains a 44-digit key of federative unit
    35, with a valid month, more than two distinct characters in its CNPJ
    field, model 55 and at least six distinct digits, and the digit run the
    key stands in has a word boundary on each side, the key is in the
    candidate set and in the output of [encontrar_chaves_acesso]. *)
Theorem C5_chave_delimitada (pre a chave b post : str) (mes : Z) :
  List.length chave = 44 ->
  Forall (fun c => Unicode.is_ascii_digit c = true) chave ->
  slice chave 0 2 = py "35" ->
  PyInt.int (slice chave 4 6) = Ok mes -> (1 <= mes <= 12)%Z ->
  2 < len_set (slice chave 6 20) ->
  slice chave 20 22 = py "55" ->
  6 <= len_set chave ->
  Forall (fun c => Unicode.isdecimal c = true) a ->
  Forall (fun c => Unicode.isdecimal c = true) b ->
  word_at (prev_after None pre) = false ->
  word_at (hd_error post) = false ->
  List.In chave (candidatos (pre ++ (a ++ chave ++ b) ++ post)) /\
  exists chaves : list str,
    encontrar_chaves_acesso (pre ++ (a ++ chave ++ b) ++ post) = Ok chaves /\
    List.In chave chaves.
Proof.
  intros H44 Hdig Huf Hmes Hm Hcnpj Hmod Hset Ha Hb Hb1 Hb2.
  assert (Hrun : Forall (fun c => Unicode.isdecimal c = true) (a ++ chave ++ b)).
  { apply Forall_app. split; [assumption|]. apply Forall_app. split; [|assumption].
    revert Hdig. apply Forall_impl. exact UnicodeFacts.ascii_digit_isdecimal. }
  assert (Hcand : List.In chave (candidatos (pre ++ (a ++ chave ++ b) ++ post))).
  { apply janelas_em_candidatos. unfold cand_janelas. apply in_flat_map.
    exists (a ++ chave ++ b). split; [|now apply janelas_contem].
    apply findall_sequencia_finds; try assumption.
    rewrite !length_app. lia. }
  split; [exact Hcand|].
  eexists. split; [apply encontrar_ok|].
  apply encontrar_in. split; [exact Hcand|].
  apply (chave_35_55_aceita chave mes); (assumption || lia).
Qed.

(** The key after "NF-e 00" and before " emitida": it stands in a run of 46
    digits between two blanks. *)
Lemma C5_witness :
  List.In chave_modelo_55
    (candidatos (py "NF-e " ++ (py "00" ++ chave_modelo_55 ++ []) ++ py " emitida")) /\
  exists chaves : list str,
    encontrar_chaves_acesso
      (py "NF-e " ++ (py "00" ++ chave_modelo_55 ++ []) ++ py " emitida") = Ok chaves /\
    List.In chave_modelo_55 chaves.
Proof.
  apply (C5_chave_delimitada (py "NF-e ") (py "00") chave_modelo_55 [] (py " emitida") 8%Z).
  - reflexivity.
  - repeat constructor.
  - reflexivity.
  - reflexivity.
  - lia.
  - vm_compute. lia.
  - reflexivity.
  - vm_compute. lia.
  - repeat constructor.
  - constructor.
  - reflexivity.
  - reflexivity.
Defined.

(** ** What the candidates are made of *)

Section Candidates.
Import Unicode UnicodeFacts.

(** Every match reported by the search is a success of [exec] at its
    start, on the text from there on. *)
Lemma scan_spans (p : pattern) (rest : str) :
  forall (skip : nat) (prev : option char) (pos : nat) (m : span),
  List.In m (scan p skip prev rest pos) ->
  exists (ma : bool) (prev' : option char),
    pos <= m_start m /\
    exec p (m_start m) ma [] prev' (skipn (m_start m - pos) rest) (m_start m) =
    Some (m_end m, m_marks m).
Proof.
  induction rest as [|c r IH]; intros skip prev pos m Hin.
  - destruct skip as [|k]; [|contradiction].
    rewrite scan_0_nil in Hin.
    destruct (exec p pos false [] prev [] pos) as [[e mk]|] eqn:E1; [|contradiction].
    destruct (e =? pos) eqn:Ee.
    + apply Nat.eqb_eq in Ee. subst e. destruct Hin as [<-|Hin].
      * exists false, prev. cbn [m_start m_end m_marks].
        rewrite Nat.sub_diag. auto.
      * destruct (exec p pos true [] prev [] pos) as [[e2 mk2]|] eqn:E2;
          [|contradiction].
        destruct Hin as [<-|[]]. exists true, prev. cbn [m_start m_end m_marks].
        rewrite Nat.sub_diag. auto.
    + destruct Hin as [<-|[]]. exists false, prev. cbn [m_start m_end m_marks].
      rewrite Nat.sub_diag. auto.
  - assert (Hnext : forall k, List.In m (scan p k (Some c) r (S pos)) ->
              exists (ma : bool) (prev' : option char),
                pos <= m_start m /\
                exec p (m_start m) ma [] prev' (skipn (m_start m - pos) (c :: r))
                     (m_start m) = Some (m_end m, m_marks m)).
    { intros k Hk. apply IH in Hk. destruct Hk as (ma & prev' & Hle & Hex).
      exists ma, prev'. split; [lia|].
      replace (m_start m - pos) with (S (m_start m - S pos)) by lia. exact Hex. }
    destruct skip as [|k]; [|rewrite scan_S in Hin; now apply (Hnext k)].
    rewrite scan_0_cons in Hin.
    destruct (exec p pos false [] prev (c :: r) pos) as [[e mk]|] eqn:E1;
      [|now apply (Hnext 0)].
    destruct (e =? pos) eqn:Ee.
    + apply Nat.eqb_eq in Ee. subst e. destruct Hin as [<-|Hin].
      * exists false, prev. cbn [m_start m_end m_marks].
        rewrite Nat.sub_diag. auto.
      * destruct (exec p pos true [] prev (c :: r) pos) as [[e2 mk2]|] eqn:E2;
          [|now apply (Hnext 0)].
        destruct Hin as [<-|Hin]; [|now apply (Hnext (e2 - S pos))].
        exists true, prev. cbn [m_start m_end m_marks].
        rewrite Nat.sub_diag. auto.
    + destruct Hin as [<-|Hin]; [|now apply (Hnext (e - S pos))].
      exists false, prev. cbn [m_start m_end m_marks].
      rewrite Nat.sub_diag. auto.
Qed.

(** A match of a pattern [\b\d{mn,mx}\b] spans digits only. *)
Lemma exec_digitos_inv (mn : nat) (mx : option nat) (start : nat) (ma : bool)
    (mk mk' : marks) (prev : option char) (rest : str) (pos e : nat) :
  exec [Op_at_boundary; Op_repeat_one mn mx cs_digit; Op_at_boundary]
       start ma mk prev rest pos = Some (e, mk') ->
  exists n, e = pos + n /\ mn <= n /\
            Forall (fun c => isdecimal c = true) (firstn n rest).
Proof.
  cbn [exec]. destruct (xorb _ _); [|discriminate].
  intros H. apply repeat_one_inv in H. destruct H as (n & Hn & Hall & Hmn & Hk).
  destruct (xorb _ _); [|discriminate].
  destruct (ma && _); [discriminate|]. injection Hk as <- _.
  exists n. repeat split; [lia|].
  revert Hall. apply Forall_impl. intros c Hc. now rewrite <- cs_digit_match.
Qed.

Lemma in_firstn (n : nat) (s : str) (c : char) : List.In c (firstn n s) -> List.In c s.
Proof.
  intros H. rewrite <- (firstn_skipn n s). apply in_or_app. now left.
Qed.

Lemma in_skipn (n : nat) (s : str) (c : char) : List.In c (skipn n s) -> List.In c s.
Proof.
  intros H. rewrite <- (firstn_skipn n s). apply in_or_app. now right.
Qed.

(** The strings [findall] returns for such a pattern are made of digits of
    the text. *)
Lemma findall_digitos (mn : nat) (mx : option nat) (texto s : str) :
  List.In s (findall0 [Op_at_boundary; Op_repeat_one mn mx cs_digit; Op_at_boundary]
                      texto) ->
  Forall (fun c => isdecimal c = true) s /\
  (forall c, List.In c s -> List.In c texto).
Proof.
  unfold findall0, finditer. intros H. apply in_map_iff in H.
  destruct H as (m & <- & Hm). apply scan_spans in Hm.
  destruct Hm as (ma & prev' & _ & Hex). rewrite Nat.sub_0_r in Hex.
  apply exec_digitos_inv in Hex. destruct Hex as (n & He & Hmn & Hall).
  unfold group0, slice. rewrite He.
  replace (m_start m + n - m_start m) with n by lia.
  split; [exact Hall|].
  intros c Hc. apply in_firstn in Hc. apply in_skipn in Hc. exact Hc.
Qed.

Lemma slice_in (s : str) (a b : nat) (c : char) :
  List.In c (slice s a b) -> List.In c s.
Proof.
  unfold slice. intros H. apply in_firstn in H. now apply in_skipn in H.
Qed.

Lemma slice_forall (P : char -> Prop) (s : str) (a b : nat) :
  Forall P s -> Forall P (slice s a b).
Proof.
  intros H. apply Forall_forall. intros c Hc. rewrite Forall_forall in H.
  apply H. now apply slice_in in Hc.
Qed.

Lemma limpar_chave_ascii (s : str) :
  Forall (fun c => is_ascii_digit c = true) (limpar_chave s).
Proof.
  rewrite limpar_chave_filter. apply Forall_forall. intros c Hc.
  now apply filter_In in Hc.
Qed.

Lemma ascii_feito_de_digitos (texto c : str) :
  Forall (fun x => is_ascii_digit x = true) c -> feito_de_digitos texto c.
Proof. apply Forall_impl. auto. Qed.

Ltac limpo H :=
  try (apply filter_In in H; destruct H as [H _]);
  apply in_map_iff in H; destruct H as (? & <- & _);
  apply ascii_feito_de_digitos, limpar_chave_ascii.

Lemma candidatos_digitos (texto c : str) :
  List.In c (candidatos texto) -> feito_de_digitos texto c.
Proof.
  unfold candidatos. rewrite !add_all_in.
  intros [H|[H|[H|[H|[H|[H|[H|[]]]]]]]].
  - unfold cand_janelas in H. apply in_flat_map in H.
    destruct H as (sq & Hsq & Hw). apply findall_digitos in Hsq.
    destruct Hsq as [Hd Hin]. unfold janelas in Hw.
    destruct (44 <=? List.length sq); [|contradiction].
    apply in_map_iff in Hw. destruct Hw as (i & <- & _).
    apply Forall_forall. intros x Hx. right. apply slice_in in Hx.
    rewrite Forall_forall in Hd. auto.
  - unfold cand_dcelt in H. limpo H.
  - unfold cand_energisa_2 in H. limpo H.
  - unfold cand_energisa_1 in H. limpo H.
  - unfold cand_blocos in H. limpo H.
  - unfold cand_espacos in H. limpo H.
  - unfold cand_nfe in H. apply findall_digitos in H. destruct H as [Hd Hin].
    apply Forall_forall. intros x Hx. right. rewrite Forall_forall in Hd. auto.
Qed.

End Candidates.

(** The part of C1 that holds on every text: [encontrar_chaves_acesso]
    returns a list without repetition; each of its strings has 44
    characters, every one a decimal digit (an ASCII digit, or a decimal
    digit of another script that stands in the text), and is accepted by
    [validar_chave_nfe].  When the decimal digits of the text are all ASCII,
    so are those of the keys. *)
Theorem saida_do_pipeline (texto : str) :
  exists chaves : list str,
    encontrar_chaves_acesso texto = Ok chaves /\
    NoDup chaves /\
    Forall (fun k => List.length k = 44 /\
                     Forall (fun c => Unicode.isdecimal c = true) k /\
                     validar_chave_nfe k = Ok true) chaves /\
    ((forall c, List.In c texto -> Unicode.isdecimal c = true ->
                Unicode.is_ascii_digit c = true) ->
     Forall (Forall (fun c => Unicode.is_ascii_digit c = true)) chaves).
Proof.
  eexists. split; [apply encontrar_ok|]. split; [|split].
  - apply add_all_nodup. constructor.
  - apply Forall_forall. intros k Hk. apply encontrar_in in Hk.
    destruct Hk as [Hc Hv]. split; [|split; [|exact Hv]].
    + now apply validar_true_inv in Hv.
    + apply candidatos_digitos in Hc. revert Hc. apply Forall_impl.
      intros c [H|[H _]]; [now apply UnicodeFacts.ascii_digit_isdecimal | exact H].
  - intros Hascii. apply Forall_forall. intros k Hk. apply encontrar_in in Hk.
    destruct Hk as [Hc _]. apply candidatos_digitos in Hc. revert Hc.
    apply Forall_impl. intros c [H|[H Hin]]; [exact H | now apply Hascii].
Qed.

(** ** The validator on strings of digits *)

Section ValidatorDigits.
Import Unicode UnicodeFacts.

(** The converse of [validar_corpo_true]. *)
Lemma validar_corpo_aceita (chave : str) (uf ano mes modelo : Z) :
  PyInt.int (slice chave 0 2) = Ok uf ->
  PyInt.int (slice chave 2 4) = Ok ano ->
  PyInt.int (slice chave 4 6) = Ok mes ->
  PyInt.int (slice chave 20 22) = Ok modelo ->
  (10 <= uf <= 53)%Z -> (1 <= mes <= 12)%Z -> (0 <= ano <= 99)%Z ->
  2 < len_set (slice chave 6 20) ->
  List.In modelo modelos_validos ->
  5 < len_set chave ->
  validar_corpo chave = Ok true.
Proof.
  intros Euf Eano Emes Emod Huf Hmes Hano Hcnpj Hmod Hset.
  unfold validar_corpo. rewrite Euf, Eano, Emes, Emod. cbn [bind].
  replace ((uf <? 10)%Z || (uf >? 53)%Z) with false
    by (symmetry; rewrite orb_false_iff, Z.gtb_ltb, !Z.ltb_ge; lia).
  replace ((mes <? 1)%Z || (mes >? 12)%Z || (ano <? 0)%Z || (ano >? 99)%Z) with false
    by (symmetry; rewrite !orb_false_iff, !Z.gtb_ltb, !Z.ltb_ge; lia).
  replace (len_set (slice chave 6 20) <=? 2) with false
    by (symmetry; apply Nat.leb_gt; lia).
  replace (existsb (Z.eqb modelo) modelos_validos) with true.
  2:{ symmetry. apply existsb_exists. exists modelo. split; [assumption|].
      apply Z.eqb_refl. }
  cbn [negb].
  replace (len_set chave <=? 5) with false by (symmetry; apply Nat.leb_gt; lia).
  reflexivity.
Qed.

(** Two characters of a string, by their positions. *)
Lemma slice_nth (s : str) (i : nat) (d : char) :
  i + 2 <= List.length s -> slice s i (i + 2) = [nth i s d; nth (S i) s d].
Proof.
  revert i. induction s as [|c s IH]; intros i H; [cbn in H; lia|].
  destruct i as [|i].
  - destruct s as [|c' s']; [cbn in H; lia|]. reflexivity.
  - cbn [List.length] in H. specialize (IH i ltac:(lia)).
    unfold slice in *. cbn [Nat.add skipn nth].
    replace (S (i + 2) - S i) with (i + 2 - i) by lia. exact IH.
Qed.

(** [int] of a field of two ASCII digits is the number they write. *)
Lemma int_campo_digitos (chave : str) (i j : nat) :
  j = i + 2 ->
  j <= List.length chave ->
  Forall (fun c => is_ascii_digit c = true) chave ->
  PyInt.int (slice chave i j) = Ok (num2 chave i).
Proof.
  intros -> Hlen Hdig. rewrite (slice_nth chave i 48%N Hlen).
  assert (H1 : is_ascii_digit (nth i chave 48%N) = true).
  { rewrite Forall_forall in Hdig. apply Hdig, nth_In. lia. }
  assert (H2 : is_ascii_digit (nth (S i) chave 48%N) = true).
  { rewrite Forall_forall in Hdig. apply Hdig, nth_In. lia. }
  etransitivity.
  - exact (PyIntFacts.int_two_decimals _ _ _ _
             (ascii_digit_todecimal _ H1) (ascii_digit_todecimal _ H2)).
  - unfold num2. f_equal. lia.
Qed.

Lemma num2_bounds (chave : str) (i : nat) :
  i + 2 <= List.length chave ->
  Forall (fun c => is_ascii_digit c = true) chave ->
  (0 <= num2 chave i <= 99)%Z.
Proof.
  intros Hlen Hdig.
  assert (B : forall j, j < List.length chave ->
                        (48 <= nth j chave 48 <= 57)%N).
  { intros j Hj. rewrite Forall_forall in Hdig.
    specialize (Hdig (nth j chave 48%N) (nth_In _ _ Hj)).
    unfold is_ascii_digit in Hdig. apply andb_true_iff in Hdig.
    destruct Hdig as [A1 A2]. apply N.leb_le in A1. apply N.leb_le in A2. lia. }
  pose proof (B i ltac:(lia)). pose proof (B (S i) ltac:(lia)).
  unfold num2. lia.
Qed.

End ValidatorDigits.

(** On a string of ASCII digits, which is what the scanner hands over when
    the text has no other decimal digit, [validar_chave_nfe] accepts exactly
    the strings of 44 digits with at least six distinct digits that start
    with "50" or else have a federative unit from 10 to 53, a month from 1
    to 12, more than two distinct digits at positions 6 to 19 and a model
    among 55, 65, 57, 66; the year is never a reason to reject. *)
Theorem validar_em_digitos (chave : str) :
  Forall (fun c => Unicode.is_ascii_digit c = true) chave ->
  (validar_chave_nfe chave = Ok true <->
   List.length chave = 44 /\ 6 <= len_set chave /\
   (startswith chave (py "50") = true \/
    ((10 <= num2 chave 0 <= 53)%Z /\ (1 <= num2 chave 4 <= 12)%Z /\
     2 < len_set (slice chave 6 20) /\
     List.In (num2 chave 20) modelos_validos))).
Proof.
  intros Hdig. split.
  - intros H. pose proof (C := H). apply validar_true_inv in C.
    destruct C as [H44 C].
    assert (Hset : 6 <= len_set chave).
    { destruct C as [C|C].
      - unfold caminho_prefixo_50 in C. apply andb_true_iff in C.
        destruct C as [_ C]. apply Nat.ltb_lt in C. lia.
      - apply validar_corpo_true in C.
        destruct C as (uf & ano & mes & modelo & C). intuition lia. }
    split; [exact H44|]. split; [exact Hset|].
    destruct C as [C|C].
    + left. unfold caminho_prefixo_50 in C. now apply andb_true_iff in C.
    + right. apply validar_corpo_true in C.
      destruct C as (uf & ano & mes & modelo & E1 & E2 & E3 & E4 & R1 & R2 & R3 & R4 & R5 & R6).
      rewrite (int_campo_digitos chave 0 2) in E1 by (assumption || lia).
      rewrite (int_campo_digitos chave 4 6) in E3 by (assumption || lia).
      rewrite (int_campo_digitos chave 20 22) in E4 by (assumption || lia).
      injection E1 as <-. injection E3 as <-. injection E4 as <-. auto.
  - intros (H44 & Hset & [H50|(Huf & Hmes & Hcnpj & Hmod)]).
    + apply prefixo_50_aceita; [assumption..|lia].
    + rewrite validar_disjuncao. unfold tem_44. rewrite H44. cbn [Nat.eqb andb].
      apply f_equal, orb_true_iff. right. unfold caminho_geral.
      rewrite (validar_corpo_aceita chave (num2 chave 0) (num2 chave 2)
                 (num2 chave 4) (num2 chave 20)); try reflexivity;
        try (apply int_campo_digitos; (assumption || lia));
        try assumption; try lia.
      apply num2_bounds; (assumption || lia).
Qed.

(** The key "3525 0812 ..." of model 55 is accepted: unit 35, month 08. *)
Lemma validar_em_digitos_witness :
  validar_chave_nfe chave_modelo_55 = Ok true <->
  List.length chave_modelo_55 = 44 /\ 6 <= len_set chave_modelo_55 /\
  (startswith chave_modelo_55 (py "50") = true \/
   ((10 <= num2 chave_modelo_55 0 <= 53)%Z /\ (1 <= num2 chave_modelo_55 4 <= 12)%Z /\
    2 < len_set (slice chave_modelo_55 6 20) /\
    List.In (num2 chave_modelo_55 20) modelos_validos)).
Proof.
  apply (validar_em_digitos chave_modelo_55). repeat constructor.
Defined.

(** For a 44-character string that starts with "50" the verdict is the
    test on the number of distinct characters alone: the date, CNPJ and
    model checks of the general path never change it. *)
Theorem validar_prefixo_50 (chave : str) :
  List.length chave = 44 ->
  startswith chave (py "50") = true ->
  validar_chave_nfe chave = Ok (5 <? len_set chave).
Proof.
  intros H44 H50. rewrite validar_disjuncao.
  unfold tem_44, caminho_prefixo_50. rewrite H44, H50. cbn [Nat.eqb andb].
  destruct (5 <? len_set chave) eqn:E; [reflexivity|]. cbn [orb].
  unfold caminho_geral.
  destruct (validar_corpo chave) as [[|]|] eqn:C; try reflexivity.
  apply validar_corpo_true in C.
  destruct C as (uf & ano & mes & modelo & C).
  apply Nat.ltb_ge in E. intuition lia.
Qed.

(** "50" followed by 42 zeros: two distinct characters, rejected. *)
Lemma validar_prefixo_50_witness :
  validar_chave_nfe (py "50" ++ repeat 48%N 42) = Ok false.
Proof.
  apply (validar_prefixo_50 (py "50" ++ repeat 48%N 42)); reflexivity.
Defined.

(** ** Digit runs of any length *)

Section AnyRun.
Import Unicode UnicodeFacts.

(** In a text made of a digit-free part, a run of digits and a digit-free
    part, a stretch of [n] digits starting at [s] lies inside the run. *)
Lemma digitos_dentro_da_run (pre run post : str) (s n : nat) :
  Forall (fun c => isdecimal c = false) pre ->
  Forall (fun c => isdecimal c = false) post ->
  0 < n -> n <= List.length (skipn s (pre ++ run ++ post)) ->
  Forall (fun c => isdecimal c = true) (firstn n (skipn s (pre ++ run ++ post))) ->
  n <= List.length run.
Proof.
  intros Hpre Hpost Hn Hlen Hall.
  set (t := pre ++ run ++ post) in *.
  assert (D : forall j, j < n ->
            List.length pre <= s + j < List.length pre + List.length run).
  { intros j Hj.
    assert (Hj' : j < List.length (firstn n (skipn s t)))
      by (rewrite length_firstn; lia).
    rewrite Forall_forall in Hall.
    pose proof (Hall _ (nth_In _ 0%N Hj')) as Hd.
    rewrite nth_firstn in Hd.
    replace (j <? n) with true in Hd by (symmetry; apply Nat.ltb_lt; lia).
    rewrite nth_skipn in Hd. unfold t in Hd.
    rewrite length_skipn in Hlen.
    destruct (Nat.lt_ge_cases (s + j) (List.length pre)) as [L|L].
    - rewrite app_nth1 in Hd by assumption.
      rewrite Forall_forall in Hpre.
      pose proof (Hpre _ (nth_In _ 0%N L)) as X.
      exfalso. apply diff_true_false. etransitivity; [symmetry; exact Hd | exact X].
    - split; [assumption|].
      destruct (Nat.lt_ge_cases (s + j) (List.length pre + List.length run))
        as [R|R]; [assumption|].
      rewrite app_nth2, app_nth2 in Hd by lia.
      assert (Hp : s + j - List.length pre - List.length run < List.length post).
      { unfold t in Hlen. rewrite !length_app in Hlen. lia. }
      rewrite Forall_forall in Hpost.
      pose proof (Hpost _ (nth_In _ 0%N Hp)) as X.
      exfalso. apply diff_true_false. etransitivity; [symmetry; exact Hd | exact X]. }
  pose proof (D 0 Hn). pose proof (D (n - 1) ltac:(lia)). lia.
Qed.

(** With fewer than eight digits in the run there is no match at all. *)
Lemma finditer_sequencia_curta (pre run post : str) :
  Forall (fun c => isdecimal c = false) pre ->
  Forall (fun c => isdecimal c = false) post ->
  List.length run < 8 ->
  finditer PADRAO_SEQUENCIA (pre ++ run ++ post) = [].
Proof.
  intros Hpre Hpost Hlen. unfold finditer.
  destruct (scan PADRAO_SEQUENCIA 0 None (pre ++ run ++ post) 0) as [|m ms] eqn:E;
    [reflexivity|]. exfalso.
  assert (Hin : List.In m (scan PADRAO_SEQUENCIA 0 None (pre ++ run ++ post) 0))
    by (rewrite E; now left).
  apply scan_spans in Hin. destruct Hin as (ma & prev' & _ & Hex).
  rewrite Nat.sub_0_r in Hex. apply exec_sequencia_inv in Hex.
  destruct Hex as (n & _ & Hn8 & Hn & Hall).
  pose proof (digitos_dentro_da_run pre run post (m_start m) n Hpre Hpost
                ltac:(lia) Hn Hall). lia.
Qed.

End AnyRun.

(** The sliding window on a text whose digits are one run with a word
    boundary on each side, for a run of any length [n]: no window when
    [n < 44], and otherwise the [n - 43] windows [run[i:i+44]] in order. *)
Theorem janelas_de_qualquer_sequencia (pre run post : str) :
  Forall (fun c => Unicode.isdecimal c = false) pre ->
  Forall (fun c => Unicode.isdecimal c = false) post ->
  Forall (fun c => Unicode.isdecimal c = true) run ->
  word_at (prev_after None pre) = false ->
  word_at (hd_error post) = false ->
  cand_janelas (pre ++ run ++ post) =
    if List.length run <? 44 then []
    else map (fun i => slice run i (i + 44)) (seq 0 (List.length run - 43)).
Proof.
  intros Hpre Hpost Hrun Hb1 Hb2. unfold cand_janelas, findall0.
  destruct (Nat.lt_ge_cases (List.length run) 8) as [Hs|Hl].
  - rewrite finditer_sequencia_curta by assumption.
    replace (List.length run <? 44) with true by (symmetry; apply Nat.ltb_lt; lia).
    reflexivity.
  - rewrite finditer_sequencia_run by assumption.
    cbn [map flat_map]. unfold group0. cbn [m_start m_end].
    rewrite slice_middle, app_nil_r. unfold janelas.
    rewrite Nat.ltb_antisym. destruct (44 <=? List.length run); reflexivity.
Qed.

(** A run of 45 digits after "Chave ": two windows. *)
Lemma janelas_de_qualquer_sequencia_witness :
  cand_janelas (py "Chave " ++ py "123456789012345678901234567890123456789012345" ++ []) =
  [py "12345678901234567890123456789012345678901234";
   py "23456789012345678901234567890123456789012345"].
Proof.
  rewrite (janelas_de_qualquer_sequencia (py "Chave ")
             (py "123456789012345678901234567890123456789012345") []).
  - reflexivity.
  - repeat constructor.
  - constructor.
  - repeat constructor.
  - reflexivity.
  - reflexivity.
Defined.

(** ** Keys are read in the text *)

Section Subsequence.
Import Unicode UnicodeFacts.

Lemma subseq_refl (l : str) : subseq l l.
Proof. induction l; constructor; assumption. Qed.

Lemma subseq_app (s1 l1 s2 l2 : str) :
  subseq s1 l1 -> subseq s2 l2 -> subseq (s1 ++ s2) (l1 ++ l2).
Proof.
  intros H1 H2. induction H1 as [l|c s l H IH|c s l H IH]; cbn.
  - induction l as [|a l IH]; [exact H2 | now apply subseq_skip].
  - now apply subseq_take.
  - now apply subseq_skip.
Qed.

Lemma subseq_trans (a b c : str) : subseq a b -> subseq b c -> subseq a c.
Proof.
  intros Hab Hbc. revert a Hab.
  induction Hbc as [l|x s l H IH|x s l H IH]; intros a Hab.
  - inversion Hab; subst. constructor.
  - inversion Hab; subst.
    + constructor.
    + apply subseq_take. now apply IH.
    + apply subseq_skip. now apply IH.
  - apply subseq_skip. now apply IH.
Qed.

Lemma subseq_filter (f : char -> bool) (l : str) : subseq (filter f l) l.
Proof.
  induction l as [|c l IH]; cbn; [constructor|].
  destruct (f c); [now apply subseq_take | now apply subseq_skip].
Qed.

Lemma subseq_filter_mono (f : char -> bool) (s l : str) :
  subseq s l -> subseq (filter f s) (filter f l).
Proof.
  induction 1 as [l|c s l H IH|c s l H IH]; cbn.
  - constructor.
  - destruct (f c); [now apply subseq_take | assumption].
  - destruct (f c); [now apply subseq_skip | assumption].
Qed.

Lemma subseq_length (s l : str) : subseq s l -> List.length s <= List.length l.
Proof. induction 1; cbn; lia. Qed.

Lemma subseq_firstn (n : nat) (l : str) : subseq (firstn n l) l.
Proof.
  rewrite <- (firstn_skipn n l) at 2. rewrite <- (app_nil_r (firstn n l)) at 1.
  apply subseq_app; [apply subseq_refl | constructor].
Qed.

Lemma subseq_skipn (n : nat) (l : str) : subseq (skipn n l) l.
Proof.
  rewrite <- (firstn_skipn n l) at 2.
  change (skipn n l) with ([] ++ skipn n l) at 1.
  apply subseq_app; [constructor | apply subseq_refl].
Qed.

Lemma subseq_slice (l : str) (a b : nat) : subseq (slice l a b) l.
Proof.
  unfold slice. eapply subseq_trans; [apply subseq_firstn | apply subseq_skipn].
Qed.

(** A slice that ends at or before [c] lies in the first [c] characters. *)
Lemma slice_in_firstn (l : str) (a b c : nat) :
  b <= c -> slice l a b = slice (firstn c l) a b.
Proof.
  intros H. unfold slice.
  destruct (Nat.le_gt_cases b a) as [L|L].
  - replace (b - a) with 0 by lia. reflexivity.
  - rewrite skipn_firstn_comm, firstn_firstn. f_equal. lia.
Qed.

(** Two slices, the first ending before the second starts. *)
Lemma subseq_two_slices (l : str) (a b c d : nat) :
  b <= c -> subseq (slice l a b ++ slice l c d) l.
Proof.
  intros H. rewrite <- (firstn_skipn c l) at 3.
  apply subseq_app.
  - rewrite (slice_in_firstn l a b c H). apply subseq_slice.
  - unfold slice. apply subseq_firstn.
Qed.

Lemma chain_lower (lo lo' hi : nat) (qs : list nat) :
  lo' <= lo -> chain lo qs hi -> chain lo' qs hi.
Proof.
  destruct qs as [|q r]; cbn; [lia|]. intros H [H1 H2]. split; [lia | assumption].
Qed.

(** The marks a match records: one position for each mark of the pattern,
    in the order of the pattern, and never going back. *)
Lemma exec_marks (p : pattern) :
  forall (start : nat) (ma : bool) (mk : marks) (prev : option char) (rest : str)
         (pos e : nat) (mk' : marks),
  exec p start ma mk prev rest pos = Some (e, mk') ->
  exists qs,
    List.length qs = List.length (mark_ids p) /\
    mk' = rev (combine (mark_ids p) qs) ++ mk /\
    chain pos qs e.
Proof.
  induction p as [|o p IH]; intros start ma mk prev rest pos e mk' H.
  - cbn [exec] in H. destruct (ma && _); [discriminate|]. injection H as <- <-.
    exists []. cbn. auto.
  - destruct o as [|cs|mn mx cs|i]; cbn [exec] in H.
    + destruct (xorb _ _); [|discriminate]. exact (IH _ _ _ _ _ _ _ _ H).
    + destruct rest as [|c r]; [discriminate|].
      destruct (charset_match cs c); [|discriminate].
      apply IH in H. destruct H as (qs & H1 & H2 & H3).
      exists qs. repeat split; try assumption.
      apply (chain_lower (S pos)); [lia | assumption].
    + apply repeat_one_inv in H. destruct H as (n & _ & _ & _ & H).
      apply IH in H. destruct H as (qs & H1 & H2 & H3).
      exists qs. repeat split; try assumption.
      apply (chain_lower (pos + n)); [lia | assumption].
    + apply IH in H. destruct H as (qs & H1 & H2 & H3).
      exists (pos :: qs). cbn [mark_ids flat_map app List.length combine rev].
      fold (mark_ids p). split; [now rewrite H1|]. split.
      * rewrite H2, <- app_assoc. reflexivity.
      * cbn. split; [lia | assumption].
Qed.

(** A group of a match is a slice of the text, or empty. *)
Lemma group_subseq (texto : str) (i : nat) (m : span) :
  subseq (group texto i m) texto.
Proof.
  unfold group.
  destruct (get_mark (m_marks m) (2 * i - 2)); [|constructor].
  destruct (get_mark (m_marks m) (2 * i - 1)); [|constructor].
  apply subseq_slice.
Qed.

Lemma limpar_subseq (s texto : str) : subseq s texto -> subseq (limpar_chave s) texto.
Proof.
  intros H. rewrite limpar_chave_filter.
  eapply subseq_trans; [apply subseq_filter | exact H].
Qed.

(** The two groups of a match of a pattern with the marks 0, 1, 2, 3: the
    first ends before the second starts. *)
Lemma junta_subseq (p : pattern) (texto : str) (m : span) :
  mark_ids p = [0; 1; 2; 3] ->
  List.In m (finditer p texto) ->
  subseq (junta (group texto 1 m, group texto 2 m)) texto.
Proof.
  intros Hids Hin. unfold finditer in Hin. apply scan_spans in Hin.
  destruct Hin as (ma & prev' & _ & Hex). apply exec_marks in Hex.
  destruct Hex as (qs & Hlen & Hmk & Hch). rewrite Hids in Hlen, Hmk.
  destruct qs as [|q0 [|q1 [|q2 [|q3 [|? ?]]]]]; try discriminate Hlen.
  cbn in Hmk, Hch. unfold junta, group. cbn [fst snd]. rewrite Hmk. cbn.
  apply limpar_subseq, subseq_two_slices. lia.
Qed.

(** Every candidate can be read in the text, left to right. *)
Lemma candidatos_subseq (texto c : str) :
  List.In c (candidatos texto) -> subseq c texto.
Proof.
  unfold candidatos. rewrite !add_all_in.
  intros [H|[H|[H|[H|[H|[H|[H|[]]]]]]]].
  - unfold cand_janelas in H. apply in_flat_map in H.
    destruct H as (sq & Hsq & Hw). unfold janelas in Hw.
    destruct (44 <=? List.length sq); [|contradiction].
    apply in_map_iff in Hw. destruct Hw as (i & <- & _).
    unfold findall0 in Hsq. apply in_map_iff in Hsq.
    destruct Hsq as (m & <- & _).
    eapply subseq_trans; apply subseq_slice.
  - unfold cand_dcelt, findall1 in H. apply filter_In in H. destruct H as [H _].
    rewrite map_map in H. apply in_map_iff in H. destruct H as (m & <- & _).
    apply limpar_subseq, group_subseq.
  - unfold cand_energisa_2, findall2 in H. apply filter_In in H.
    destruct H as [H _]. rewrite map_map in H. apply in_map_iff in H.
    destruct H as (m & <- & Hm).
    now apply (junta_subseq PADRAO_ENERGISA_2).
  - unfold cand_energisa_1, findall2 in H. apply filter_In in H.
    destruct H as [H _]. rewrite map_map in H. apply in_map_iff in H.
    destruct H as (m & <- & Hm).
    now apply (junta_subseq (ignorecase PADRAO_ENERGISA_1)).
  - unfold cand_blocos, findall1 in H. rewrite map_map in H.
    apply in_map_iff in H. destruct H as (m & <- & _).
    apply limpar_subseq, group_subseq.
  - unfold cand_espacos, findall1 in H. rewrite map_map in H.
    apply in_map_iff in H. destruct H as (m & <- & _).
    apply limpar_subseq, group_subseq.
  - unfold cand_nfe, findall0 in H. apply in_map_iff in H.
    destruct H as (m & <- & _). apply subseq_slice.
Qed.

End Subsequence.

(** The keys of a text: each has 44 decimal digits, is accepted by the
    validator and can be read in the text. *)
Lemma chaves_do_texto_in (texto k : str) :
  List.In k (chaves_do_texto texto) ->
  List.In k (candidatos texto) /\ validar_chave_nfe k = Ok true.
Proof.
  unfold chaves_do_texto. rewrite encontrar_ok. apply encontrar_in.
Qed.

Lemma chaves_do_texto_validas (texto : str) :
  Forall (fun k => List.length k = 44 /\
                   Forall (fun c => Unicode.isdecimal c = true) k /\
                   validar_chave_nfe k = Ok true) (chaves_do_texto texto).
Proof.
  apply Forall_forall. intros k Hk. apply chaves_do_texto_in in Hk.
  destruct Hk as [Hc Hv]. split; [|split; [|exact Hv]].
  - now apply validar_true_inv in Hv.
  - apply candidatos_digitos in Hc. revert Hc. apply Forall_impl.
    intros c [H|[H _]]; [now apply UnicodeFacts.ascii_digit_isdecimal | exact H].
Qed.

Lemma chaves_do_texto_subseq (texto : str) :
  Forall (fun k => subseq k texto) (chaves_do_texto texto).
Proof.
  apply Forall_forall. intros k Hk. apply chaves_do_texto_in in Hk.
  destruct Hk as [Hc _]. now apply candidatos_subseq.
Qed.

Lemma chaves_do_texto_ok (texto : str) :
  encontrar_chaves_acesso texto = Ok (chaves_do_texto texto).
Proof.
  unfold chaves_do_texto. now rewrite encontrar_ok.
Qed.

Lemma filter_todos (f : char -> bool) (l : str) :
  Forall (fun c => f c = true) l -> filter f l = l.
Proof.
  induction 1 as [|c r Hc Hr IH]; [reflexivity|]. cbn. now rewrite Hc, IH.
Qed.


(** Every key that [encontrar_chaves_acesso] returns can be read in the
    text from left to right, skipping characters: its 44 characters occur
    in the text in the same order.  No key is made of digits the text does
    not hold, or of digits taken in another order. *)
Theorem chaves_lidas_no_texto (texto : str) :
  exists chaves : list str,
    encontrar_chaves_acesso texto = Ok chaves /\
    Forall (fun k => subseq k texto) chaves.
Proof.
  eexists. split; [apply encontrar_ok|].
  apply Forall_forall. intros k Hk. apply encontrar_in in Hk.
  destruct Hk as [Hc _]. now apply candidatos_subseq.
Qed.

(** A text with fewer than 44 decimal digits gives no key; in particular
    the empty text gives none. *)
Theorem poucos_digitos_sem_chave (texto : str) :
  conta_digitos texto < 44 -> encontrar_chaves_acesso texto = Ok [].
Proof.
  intros Hfew. rewrite chaves_do_texto_ok. f_equal.
  pose proof (chaves_do_texto_validas texto) as Hk.
  pose proof (chaves_do_texto_subseq texto) as Hsub.
  destruct (chaves_do_texto texto) as [|k r]; [reflexivity|]. exfalso.
  inversion Hk as [|? ? (H44 & Hdec & _) _]; subst.
  inversion Hsub as [|? ? Hs _]; subst.
  apply (subseq_filter_mono Unicode.isdecimal) in Hs.
  apply subseq_length in Hs.
  rewrite (filter_todos Unicode.isdecimal k Hdec) in Hs.
  unfold conta_digitos in Hfew. lia.
Qed.

(** The scenario text without its last group holds 40 digits. *)
Lemma poucos_digitos_sem_chave_witness :
  encontrar_chaves_acesso
    (py "Chave de acesso: 3525 0812 3456 7801 2345 5567 0123 4567 8901 2345") = Ok [].
Proof.
  apply (poucos_digitos_sem_chave
           (py "Chave de acesso: 3525 0812 3456 7801 2345 5567 0123 4567 8901 2345")).
  vm_compute. lia.
Defined.



(** ** Keys printed in groups *)

Section Groups.
Import Unicode UnicodeFacts.

(** A repetition [x{m}] over exactly [m] characters of the class. *)
Lemma repeat_one_exact (A : Type) (cs : charset) (m : nat)
    (k : option char -> str -> nat -> option A) (run post : str) (res : A) :
  forall (cnt : nat) (prev : option char) (pos : nat),
  Forall (fun c => charset_match cs c = true) run ->
  cnt + List.length run = m ->
  k (prev_after prev run) post (pos + List.length run) = Some res ->
  repeat_one cs m (Some m) k cnt prev (run ++ post) pos = Some res.
Proof.
  induction run as [|c run IH]; intros cnt prev pos Hrun Hm Hk.
  - cbn [List.length prev_after fold_left app] in *.
    rewrite Nat.add_0_r in Hm, Hk. subst cnt.
    destruct post as [|c r]; cbn [repeat_one below]; rewrite ?Nat.ltb_irrefl,
      ?andb_false_r, Nat.leb_refl; exact Hk.
  - inversion Hrun as [|? ? Hc Hr]; subst. cbn [List.length] in *.
    cbn [app repeat_one below]. rewrite Hc.
    replace (cnt <? cnt + S (List.length run)) with true
      by (symmetry; apply Nat.ltb_lt; lia).
    cbn [andb].
    rewrite (IH (S cnt) (Some c) (S pos)); [reflexivity | assumption | lia |].
    cbn [prev_after fold_left] in Hk.
    now replace (S pos + List.length run) with (pos + S (List.length run)) by lia.
Qed.

Lemma sep_match (c : char) :
  charset_match (Charset false [Literal 46%N; Category Category_space; Literal 45%N]) c =
  separador c.
Proof.
  unfold charset_match, separador. cbn.
  destruct (N.eqb c 46), (isspace c), (N.eqb c 45); reflexivity.
Qed.

Lemma digito_nao_separador (c : char) :
  is_ascii_digit c = true -> separador c = false.
Proof.
  intros H. unfold separador.
  rewrite (decimal_not_space c _ (ascii_digit_todecimal c H)).
  unfold is_ascii_digit in H. apply andb_true_iff in H. destruct H as [H1 H2].
  apply N.leb_le in H1.
  replace (N.eqb c 46) with false by (symmetry; apply N.eqb_neq; lia).
  replace (N.eqb c 45) with false by (symmetry; apply N.eqb_neq; lia).
  reflexivity.
Qed.

Lemma separador_nao_digito (c : char) :
  separador c = true -> is_ascii_digit c = false.
Proof.
  intros H. destruct (is_ascii_digit c) eqn:E; [|reflexivity].
  apply digito_nao_separador in E. congruence.
Qed.

(** One group and its separator, then the rest of the pattern. *)
Lemma exec_grupo (tail : pattern) (g s rest : str) (res : nat * marks)
    (start : nat) (ma : bool) (mk : marks) (prev : option char) (pos : nat) :
  List.length g = 4 ->
  Forall (fun c => is_ascii_digit c = true) g ->
  Forall (fun c => separador c = true) s ->
  match rest with [] => True | c :: _ => separador c = false end ->
  exec tail start ma mk (prev_after prev (g ++ s)) rest
       (pos + List.length (g ++ s)) = Some res ->
  exec (d4 :: sep_star :: tail) start ma mk prev (g ++ s ++ rest) pos = Some res.
Proof.
  intros Hg4 Hg Hs Hrest Hk. unfold d4. cbn [exec].
  apply repeat_one_exact.
  - revert Hg. apply Forall_impl. intros c Hc. rewrite cs_digit_match.
    now apply ascii_digit_isdecimal.
  - cbn. exact Hg4.
  - unfold sep_star. cbn [exec]. apply repeat_one_greedy.
    + revert Hs. apply Forall_impl. intros c Hc. now rewrite sep_match.
    + destruct rest as [|c r]; [exact I|]. now rewrite sep_match.
    + lia.
    + rewrite <- prev_after_app, <- Nat.add_assoc, <- length_app. exact Hk.
Qed.

Lemma head_formatada (gs : list (str * str)) (rest : str) :
  Forall grupo_bem_formado gs ->
  match rest with [] => True | c :: _ => separador c = false end ->
  match flat_map (fun g => fst g ++ snd g) gs ++ rest with
  | [] => True
  | c :: _ => separador c = false
  end.
Proof.
  intros Hgs Hrest. destruct gs as [|[g s] gs']; [exact Hrest|].
  inversion Hgs as [|? ? (H4 & Hd & _) _]; subst. cbn [fst snd] in *.
  destruct g as [|c g']; [discriminate H4|]. cbn.
  inversion Hd; subst. now apply digito_nao_separador.
Qed.

(** The groups of a printed key, one after the other. *)
Lemma exec_grupos (tail : pattern) (rest : str) (res : nat * marks)
    (start : nat) (ma : bool) (mk : marks) (gs : list (str * str)) :
  forall (prev : option char) (pos : nat),
  Forall grupo_bem_formado gs ->
  match rest with [] => True | c :: _ => separador c = false end ->
  exec tail start ma mk
       (prev_after prev (flat_map (fun g => fst g ++ snd g) gs)) rest
       (pos + List.length (flat_map (fun g => fst g ++ snd g) gs)) = Some res ->
  exec (times (List.length gs) [d4; sep_star] ++ tail) start ma mk prev
       (flat_map (fun g => fst g ++ snd g) gs ++ rest) pos = Some res.
Proof.
  induction gs as [|[g s] gs IH]; intros prev pos Hgs Hrest Hk.
  - cbn in *. now rewrite Nat.add_0_r in Hk.
  - inversion Hgs as [|? ? (H4 & Hd & Hs) Hgs']; subst. cbn [fst snd] in *.
    cbn [List.length times flat_map fst snd app].
    rewrite <- !app_assoc.
    apply exec_grupo; try assumption.
    + now apply head_formatada.
    + apply IH; try assumption.
      cbn [flat_map fst snd] in Hk.
      rewrite prev_after_app, length_app, Nat.add_assoc in Hk. exact Hk.
Qed.

(** The last group and the closing word boundary. *)
Lemma exec_ultimo_grupo (ultimo post : str) (start : nat) (mk : marks)
    (prev : option char) (pos : nat) :
  List.length ultimo = 4 ->
  Forall (fun c => is_ascii_digit c = true) ultimo ->
  word_at (hd_error post) = false ->
  exec [d4; Op_mark 1; Op_at_boundary] start false mk prev (ultimo ++ post) pos =
  Some (pos + 4, (1, pos + 4) :: mk).
Proof.
  intros H4 Hd Hpost. unfold d4. cbn [exec].
  assert (Hdec : Forall (fun c => isdecimal c = true) ultimo).
  { revert Hd. apply Forall_impl. exact ascii_digit_isdecimal. }
  apply repeat_one_exact.
  - revert Hdec. apply Forall_impl. intros c Hc. now rewrite cs_digit_match.
  - cbn. exact H4.
  - rewrite H4, Hpost.
    rewrite (word_after_digits ultimo prev); [reflexivity | | assumption].
    intros ->. discriminate H4.
Qed.

(** [PADRAO_CHAVE_BLOCOS] matches a key printed in eleven groups that
    stands between two word boundaries, and its group is the printed key. *)
Lemma exec_blocos_formatada (gs : list (str * str)) (ultimo post : str)
    (prev : option char) (pos : nat) :
  List.length gs = 10 ->
  Forall grupo_bem_formado gs ->
  List.length ultimo = 4 ->
  Forall (fun c => is_ascii_digit c = true) ultimo ->
  word_at prev = false ->
  word_at (hd_error post) = false ->
  exec PADRAO_CHAVE_BLOCOS pos false [] prev (formatada gs ultimo ++ post) pos =
  Some (pos + List.length (formatada gs ultimo),
        [(1, pos + List.length (formatada gs ultimo)); (0, pos)]).
Proof.
  intros H10 Hgs H4 Hd Hprev Hpost.
  unfold PADRAO_CHAVE_BLOCOS, formatada. rewrite <- H10.
  cbn [app exec]. rewrite <- app_assoc.
  assert (Hhd : word_at (hd_error (flat_map (fun g => fst g ++ snd g) gs
                                    ++ ultimo ++ post)) = true).
  { destruct gs as [|[g s] gs']; [discriminate H10|].
    inversion Hgs as [|? ? (G4 & Gd & _) _]; subst. cbn [fst snd] in *.
    destruct g as [|c g']; [discriminate G4|]. cbn.
    inversion Gd; subst. now apply decimal_isword, ascii_digit_isdecimal. }
  rewrite Hprev, Hhd. cbn [xorb].
  apply exec_grupos; [assumption | |].
  - destruct ultimo as [|c u]; [discriminate H4|]. cbn.
    inversion Hd; subst. now apply digito_nao_separador.
  - rewrite exec_ultimo_grupo by assumption.
    rewrite length_app, H4. f_equal. f_equal; [lia|]. f_equal. f_equal. lia.
Qed.

(** [PADRAO_CHAVE_BLOCOS] does not match where no digit stands. *)
Lemma exec_blocos_nao_digito (start : nat) (ma : bool) (mk : marks)
    (prev : option char) (rest : str) (pos : nat) :
  match rest with [] => True | c :: _ => isdecimal c = false end ->
  exec PADRAO_CHAVE_BLOCOS start ma mk prev rest pos = None.
Proof.
  intros H.
  change PADRAO_CHAVE_BLOCOS
    with (Op_at_boundary :: Op_mark 0 :: d4 ::
          (sep_star :: times 9 [d4; sep_star] ++ [d4; Op_mark 1; Op_at_boundary])).
  generalize (sep_star :: times 9 [d4; sep_star] ++ [d4; Op_mark 1; Op_at_boundary]).
  intros resto. unfold d4. cbn [exec].
  destruct (xorb _ _); [|reflexivity].
  destruct rest as [|c r]; cbn [repeat_one]; [reflexivity|].
  rewrite cs_digit_match, H. reflexivity.
Qed.

Lemma scan_blocos_pre (pre rest : str) :
  Forall (fun c => isdecimal c = false) pre ->
  forall (prev : option char) (pos : nat),
  scan PADRAO_CHAVE_BLOCOS 0 prev (pre ++ rest) pos =
  scan PADRAO_CHAVE_BLOCOS 0 (prev_after prev pre) rest (pos + List.length pre).
Proof.
  induction 1 as [|c r Hc Hr IH]; intros prev pos.
  - cbn. now rewrite Nat.add_0_r.
  - cbn [app]. rewrite scan_0_cons, exec_blocos_nao_digito by exact Hc.
    rewrite IH. cbn [prev_after fold_left List.length]. f_equal. lia.
Qed.

(** The digits of a printed key are what [limpar_chave] keeps of it. *)
Lemma limpar_formatada (gs : list (str * str)) (ultimo : str) :
  Forall grupo_bem_formado gs ->
  Forall (fun c => is_ascii_digit c = true) ultimo ->
  limpar_chave (formatada gs ultimo) = digitos_dos_grupos gs ultimo.
Proof.
  intros Hgs Hd. rewrite limpar_chave_filter. unfold formatada, digitos_dos_grupos.
  assert (Fd : forall l, Forall (fun c => is_ascii_digit c = true) l ->
                         filter is_ascii_digit l = l).
  { induction 1 as [|c l Hc Hl IH]; [reflexivity|]. cbn. now rewrite Hc, IH. }
  assert (Fs : forall l, Forall (fun c => separador c = true) l ->
                         filter is_ascii_digit l = []).
  { induction 1 as [|c l Hc Hl IH]; [reflexivity|]. cbn.
    now rewrite (separador_nao_digito c Hc). }
  rewrite filter_app, (Fd ultimo Hd). f_equal.
  induction Hgs as [|[g s] gs' (_ & Gd & Gs) Hgs' IH]; [reflexivity|].
  cbn [flat_map fst snd] in *. rewrite !filter_app, IH, (Fd g Gd), (Fs s Gs).
  now rewrite app_nil_r.
Qed.

End Groups.

(** A key printed in eleven groups of four ASCII digits, the groups
    separated by any mix of dots, white space (blanks, line breaks) and
    hyphens, or by nothing, is a candidate when no digit comes before it in
    the text and it stands between two word boundaries; and when the
    validator accepts its 44 digits, it is in the output. *)
Theorem chave_formatada_encontrada (pre post : str) (gs : list (str * str))
    (ultimo : str) :
  List.length gs = 10 ->
  Forall grupo_bem_formado gs ->
  List.length ultimo = 4 ->
  Forall (fun c => Unicode.is_ascii_digit c = true) ultimo ->
  Forall (fun c => Unicode.isdecimal c = false) pre ->
  word_at (prev_after None pre) = false ->
  word_at (hd_error post) = false ->
  List.In (digitos_dos_grupos gs ultimo)
          (candidatos (pre ++ formatada gs ultimo ++ post)) /\
  (validar_chave_nfe (digitos_dos_grupos gs ultimo) = Ok true ->
   exists chaves : list str,
     encontrar_chaves_acesso (pre ++ formatada gs ultimo ++ post) = Ok chaves /\
     List.In (digitos_dos_grupos gs ultimo) chaves).
Proof.
  intros H10 Hgs H4 Hd Hpre Hb1 Hb2.
  assert (Hcand : List.In (digitos_dos_grupos gs ultimo)
                          (candidatos (pre ++ formatada gs ultimo ++ post))).
  { unfold candidatos. rewrite !add_all_in.
    right. right. right. right. left.
    unfold cand_blocos, findall1, finditer. rewrite map_map.
    rewrite scan_blocos_pre by assumption. cbn [Nat.add].
    pose proof (exec_blocos_formatada gs ultimo post (prev_after None pre)
                  (List.length pre) H10 Hgs H4 Hd Hb1 Hb2) as E.
    assert (Hlen : 0 < List.length (formatada gs ultimo)).
    { unfold formatada. rewrite length_app. lia. }
    destruct (formatada gs ultimo ++ post) as [|c r] eqn:Et.
    { apply (f_equal (@List.length _)) in Et. rewrite length_app in Et.
      cbn in Et. lia. }
    rewrite scan_0_cons, E.
    replace (List.length pre + List.length (formatada gs ultimo) =? List.length pre)
      with false by (symmetry; apply Nat.eqb_neq; lia).
    cbn [map]. left. unfold group.
    cbn [m_marks get_mark Nat.mul Nat.add Nat.sub Nat.eqb].
    rewrite <- Et, slice_middle. now apply limpar_formatada. }
  split; [exact Hcand|]. intros Hv.
  eexists. split; [apply encontrar_ok|].
  apply encontrar_in. split; assumption.
Qed.

(** The scenario of the specification with the model field 55, printed as
    ten groups, a line break and the last group. *)
Lemma chave_formatada_encontrada_witness :
  exists chaves : list str,
    encontrar_chaves_acesso
      (py "Chave de acesso: " ++
       formatada [(py "3525", py " "); (py "0812", py " "); (py "3456", py " ");
                  (py "7801", py " "); (py "2345", py " "); (py "5567", py " ");
                  (py "0123", py " "); (py "4567", py " "); (py "8901", py " ");
                  (py "2345", [10%N])] (py "6789") ++ []) = Ok chaves /\
    List.In (py "35250812345678012345556701234567890123456789") chaves.
Proof.
  destruct (chave_formatada_encontrada (py "Chave de acesso: ") []
              [(py "3525", py " "); (py "0812", py " "); (py "3456", py " ");
               (py "7801", py " "); (py "2345", py " "); (py "5567", py " ");
               (py "0123", py " "); (py "4567", py " "); (py "8901", py " ");
               (py "2345", [10%N])] (py "6789")) as [_ H].
  - reflexivity.
  - repeat constructor.
  - reflexivity.
  - repeat constructor.
  - repeat constructor.
  - reflexivity.
  - reflexivity.
  - apply H. vm_compute. reflexivity.
Defined.

(** ** The document loop *)

Section Loop.

Variable cfg : pastas.

(** The loop body, with the keys of the text written out. *)
Lemma processar_um_eq (st : estado) (d : documento) :
  processar_um cfg st d =
  if foi_processado d then
    Estado (if tem_chave_doc d
            then dict_set (resultados st) (nome d) (chaves_doc d)
            else resultados st)
           (S (arquivos_processados st))
           (if tem_chave_doc d then S (arquivos_com_chave st)
            else arquivos_com_chave st)
           (if copia_ok d then copias st ++ [copia_de cfg d] else copias st)
  else st.
Proof.
  unfold processar_um, foi_processado, tem_chave_doc, chaves_doc, copia_de,
    tem_chave_doc.
  destruct (texto_extraido d) as [t|]; [|reflexivity].
  rewrite chaves_do_texto_ok.
  destruct (tem_chave (chaves_do_texto t)); reflexivity.
Qed.

Lemma dict_set_novo (r : list (str * list str)) (k : str) (v : list str) :
  ~ List.In k (map fst r) -> dict_set r k v = r ++ [(k, v)].
Proof.
  induction r as [|[k' v'] r IH]; intros H; [reflexivity|].
  cbn [dict_set]. destruct (str_eq_dec k k') as [E|E].
  - exfalso. apply H. left. now symmetry.
  - rewrite IH; [reflexivity|]. intros K. apply H. now right.
Qed.

Lemma dict_set_chaves (r : list (str * list str)) (k : str) (v : list str) (x : str) :
  List.In x (map fst (dict_set r k v)) <-> x = k \/ List.In x (map fst r).
Proof.
  induction r as [|[k' v'] r IH]; cbn [dict_set map fst List.In].
  - intuition congruence.
  - destruct (str_eq_dec k k') as [E|E]; cbn [map fst List.In].
    + subst. intuition congruence.
    + rewrite IH. intuition congruence.
Qed.


(** The counters and the copies after the loop, from any state. *)
Lemma processar_acumula (docs : list documento) :
  forall st : estado,
  arquivos_processados (fold_left (processar_um cfg) docs st) =
    arquivos_processados st + List.length (filter foi_processado docs) /\
  arquivos_com_chave (fold_left (processar_um cfg) docs st) =
    arquivos_com_chave st + List.length (filter tem_chave_doc docs) /\
  copias (fold_left (processar_um cfg) docs st) =
    copias st ++ map (copia_de cfg)
                     (filter (fun d => foi_processado d && copia_ok d) docs).
Proof.
  induction docs as [|d docs IH]; intros st.
  - cbn. rewrite app_nil_r. repeat split; lia.
  - cbn [fold_left filter]. destruct (IH (processar_um cfg st d)) as (I1 & I2 & I3).
    rewrite I1, I2, I3, processar_um_eq.
    assert (T : tem_chave_doc d = true -> foi_processado d = true).
    { unfold tem_chave_doc, foi_processado.
      destruct (texto_extraido d); [reflexivity | discriminate]. }
    destruct (foi_processado d) eqn:Ep; cbn [andb].
    + destruct (tem_chave_doc d), (copia_ok d);
        cbn [arquivos_processados arquivos_com_chave copias List.length map];
        rewrite <- ?app_assoc; repeat split; cbn [app]; try lia; reflexivity.
    + destruct (tem_chave_doc d); [specialize (T eq_refl); discriminate|].
      repeat split; lia.
Qed.

(** With distinct file names, each file with a key adds one entry at the
    end of [resultados]. *)
Lemma processar_resultados (docs : list documento) :
  forall st : estado,
  NoDup (map nome docs) ->
  (forall d, List.In d docs -> ~ List.In (nome d) (map fst (resultados st))) ->
  resultados (fold_left (processar_um cfg) docs st) =
  resultados st ++ map (fun d => (nome d, chaves_doc d)) (filter tem_chave_doc docs).
Proof.
  induction docs as [|d docs IH]; intros st Hnd Hnew.
  - cbn. now rewrite app_nil_r.
  - cbn [map] in Hnd. inversion Hnd as [|? ? Hd Hnd']; subst.
    cbn [fold_left filter]. rewrite IH; [|assumption|].
    + rewrite processar_um_eq.
      destruct (foi_processado d) eqn:Ep.
      * destruct (tem_chave_doc d) eqn:Et; cbn [resultados]; [|reflexivity].
        rewrite dict_set_novo by (apply Hnew; now left).
        rewrite <- app_assoc. reflexivity.
      * assert (Et : tem_chave_doc d = false).
        { unfold tem_chave_doc, foi_processado in *.
          destruct (texto_extraido d); [discriminate | reflexivity]. }
        now rewrite Et.
    + intros d' Hd' Hin. rewrite processar_um_eq in Hin.
      assert (Hne : nome d' <> nome d).
      { intros E. apply Hd. rewrite <- E. now apply in_map. }
      destruct (foi_processado d); [|apply (Hnew d'); [now right | assumption]].
      destruct (tem_chave_doc d); cbn [resultados] in Hin.
      * apply dict_set_chaves in Hin. destruct Hin as [Hin|Hin]; [congruence|].
        apply (Hnew d'); [now right | assumption].
      * apply (Hnew d'); [now right | assumption].
Qed.


End Loop.

(** The counters of the loop: [arquivos_processados] counts the files whose
    text extraction returned, [arquivos_com_chave] those among them whose
    text gave a key; a copy that fails changes neither, and
    [arquivos_com_chave <= arquivos_processados <= len(arquivos_pdf)]. *)
Theorem contadores_do_processamento (cfg : pastas) (docs : list documento) :
  arquivos_processados (processar_lista cfg docs) =
    List.length (filter foi_processado docs) /\
  arquivos_com_chave (processar_lista cfg docs) =
    List.length (filter tem_chave_doc docs) /\
  arquivos_com_chave (processar_lista cfg docs) <=
    arquivos_processados (processar_lista cfg docs) /\
  arquivos_processados (processar_lista cfg docs) <= List.length docs.
Proof.
  unfold processar_lista.
  destruct (processar_acumula cfg docs estado_inicial) as (H1 & H2 & _).
  cbn [estado_inicial arquivos_processados arquivos_com_chave Nat.add] in H1, H2.
  rewrite H1, H2. repeat split; [|apply filter_length_le].
  clear. induction docs as [|d docs IH]; [cbn; lia|]. cbn [filter].
  assert (T : tem_chave_doc d = true -> foi_processado d = true).
  { unfold tem_chave_doc, foi_processado.
    destruct (texto_extraido d); [reflexivity | discriminate]. }
  destruct (tem_chave_doc d), (foi_processado d); cbn [List.length];
    try lia; specialize (T eq_refl); discriminate.
Qed.

(** The routing: the copies made are, in the order of the files, one for
    each file whose text extraction and copy both returned, from the input
    folder to the has-key folder when [encontrar_chaves_acesso] gave a key
    for its text and to the no-key folder when it gave none. *)
Theorem copias_do_processamento (cfg : pastas) (docs : list documento) :
  copias (processar_lista cfg docs) =
  map (copia_de cfg) (filter (fun d => foi_processado d && copia_ok d) docs).
Proof.
  unfold processar_lista.
  destruct (processar_acumula cfg docs estado_inicial) as (_ & _ & H).
  exact H.
Qed.

(** With distinct file names, [resultados] holds, in the order of the
    files, one entry for each file whose text gave a key, with the keys of
    that text; a file without key has no entry, and a file whose copy
    failed keeps its entry. *)
Theorem resultados_do_processamento (cfg : pastas) (docs : list documento) :
  NoDup (map nome docs) ->
  resultados (processar_lista cfg docs) =
  map (fun d => (nome d, chaves_doc d)) (filter tem_chave_doc docs).
Proof.
  intros Hnd. unfold processar_lista.
  rewrite processar_resultados; [reflexivity | assumption |].
  intros d _ [].
Qed.

(** Two files: one with the key of model 55 whose copy fails, one without
    digits. *)
Lemma resultados_do_processamento_witness :
  resultados
    (processar_lista (Pastas (fun a b => a ++ py "/" ++ b) (py "in") (py "com") (py "sem"))
       [Documento (py "E_1_x_F.pdf") (Some chave_modelo_55) false;
        Documento (py "vazio.pdf") (Some (py "sem chave")) true]) =
  [(py "E_1_x_F.pdf", [chave_modelo_55])].
Proof.
  rewrite (resultados_do_processamento
             (Pastas (fun a b => a ++ py "/" ++ b) (py "in") (py "com") (py "sem"))).
  - vm_compute. reflexivity.
  - vm_compute. repeat constructor; cbn; intuition discriminate.
Defined.


(** ** The fields of a file name *)

Section Names.

Lemma split_sem_sep (sep : char) (s : str) :
  ~ List.In sep s -> split_char sep s = [s].
Proof.
  induction s as [|c r IH]; intros H; [reflexivity|].
  cbn [split_char].
  replace (N.eqb c sep) with false
    by (symmetry; apply N.eqb_neq; intros E; apply H; now left).
  rewrite IH; [reflexivity|]. intros K. apply H. now right.
Qed.

Lemma split_app_sep (sep : char) (s rest : str) :
  ~ List.In sep s ->
  split_char sep (s ++ sep :: rest) = s :: split_char sep rest.
Proof.
  induction s as [|c r IH]; intros H.
  - cbn [app split_char]. now rewrite N.eqb_refl.
  - cbn [app split_char].
    replace (N.eqb c sep) with false
      by (symmetry; apply N.eqb_neq; intros E; apply H; now left).
    rewrite IH; [reflexivity|]. intros K. apply H. now right.
Qed.

(** Splitting what was joined gives the parts back. *)
Lemma split_join (sep : char) (partes : list str) :
  partes <> [] ->
  Forall (fun p => ~ List.In sep p) partes ->
  split_char sep (join_char sep partes) = partes.
Proof.
  induction partes as [|p ps IH]; intros Hne Hall; [congruence|].
  inversion Hall as [|? ? Hp Hps]; subst. destruct ps as [|q qs].
  - cbn [join_char]. now apply split_sem_sep.
  - change (join_char sep (p :: q :: qs))
      with (p ++ sep :: join_char sep (q :: qs)).
    rewrite split_app_sep by assumption.
    rewrite IH; [reflexivity | discriminate | assumption].
Qed.

(** A string without dot holds no occurrence of an extension. *)
Lemma remove_sem_ponto (ext f : str) :
  ~ List.In 46%N f -> replace_vazio (46%N :: ext) f = f.
Proof.
  unfold replace_vazio. induction f as [|c r IH]; intros H; [reflexivity|].
  cbn [remove_all startswith].
  replace (N.eqb 46 c) with false
    by (symmetry; apply N.eqb_neq; intros E; apply H; now left).
  cbn [andb]. rewrite IH; [reflexivity|]. intros K. apply H. now right.
Qed.

Lemma remove_all_0 (old : str) (c : char) (r : str) :
  remove_all old 0 (c :: r) =
  if startswith (c :: r) old then remove_all old (List.length old - 1) r
  else c :: remove_all old 0 r.
Proof. reflexivity. Qed.

Lemma remove_all_skip (old r : str) (k : nat) :
  List.length r <= k -> remove_all old k r = [].
Proof.
  revert k. induction r as [|c r IH]; intros k H; [reflexivity|].
  destruct k as [|k]; [cbn in H; lia|]. cbn [remove_all]. apply IH.
  cbn in H. lia.
Qed.

Lemma startswith_refl (s : str) : startswith s s = true.
Proof.
  induction s as [|c r IH]; [reflexivity|]. cbn. now rewrite N.eqb_refl.
Qed.

(** The extension at the end of a name without other dot is removed. *)
Lemma remove_extensao (ext f : str) :
  ~ List.In 46%N f -> replace_vazio (46%N :: ext) (f ++ 46%N :: ext) = f.
Proof.
  unfold replace_vazio. induction f as [|c r IH]; intros H.
  - cbn [app]. rewrite remove_all_0, startswith_refl.
    apply remove_all_skip. cbn. lia.
  - cbn [app]. rewrite remove_all_0. cbn [startswith].
    replace (N.eqb 46 c) with false
      by (symmetry; apply N.eqb_neq; intros E; apply H; now left).
    cbn [andb]. rewrite IH; [reflexivity|]. intros K. apply H. now right.
Qed.

End Names.

(** The fields of a report row come from the file name split at its
    underscores: [empresa] is the first part, [numero_doc] the second (empty
    when there is none), [filial] the fourth with every ".pdf" and ".PDF"
    removed (empty when there are fewer than four parts).  For a name
    "empresa_numero_x_filial.pdf" whose parts hold no underscore and whose
    last part holds no dot, they are [empresa], [numero] and [filial]. *)
Theorem campos_de_um_nome :
  (forall partes : list str,
      partes <> [] ->
      Forall (fun p => ~ List.In 95%N p) partes ->
      campos_do_nome (join_char 95%N partes) =
      (nth 0 partes [], nth 1 partes [],
       if 3 <? List.length partes
       then replace_vazio (py ".PDF") (replace_vazio (py ".pdf") (nth 3 partes []))
       else [])) /\
  (forall e n x f : str,
      ~ List.In 95%N e -> ~ List.In 95%N n -> ~ List.In 95%N x ->
      ~ List.In 95%N f -> ~ List.In 46%N f ->
      campos_do_nome (e ++ py "_" ++ n ++ py "_" ++ x ++ py "_" ++ f ++ py ".pdf") =
      (e, n, f)).
Proof.
  assert (G : forall partes : list str,
      partes <> [] ->
      Forall (fun p => ~ List.In 95%N p) partes ->
      campos_do_nome (join_char 95%N partes) =
      (nth 0 partes [], nth 1 partes [],
       if 3 <? List.length partes
       then replace_vazio (py ".PDF") (replace_vazio (py ".pdf") (nth 3 partes []))
       else [])).
  { intros partes Hne Hall. unfold campos_do_nome.
    rewrite split_join by assumption.
    destruct partes as [|p0 [|p1 ps]]; [congruence | reflexivity | reflexivity]. }
  split; [exact G|].
  intros e n x f He Hn Hx Hf Hdot.
  change (e ++ py "_" ++ n ++ py "_" ++ x ++ py "_" ++ f ++ py ".pdf")
    with (join_char 95%N [e; n; x; f ++ py ".pdf"]).
  rewrite G.
  - cbn [nth List.length Nat.ltb Nat.leb].
    change (py ".pdf") with (46%N :: py "pdf").
    rewrite remove_extensao by assumption.
    change (py ".PDF") with (46%N :: py "PDF").
    now rewrite remove_sem_ponto.
  - discriminate.
  - repeat constructor; try assumption.
    intros K. apply in_app_or in K. destruct K as [K|K]; [now apply Hf|].
    vm_compute in K. intuition discriminate.
Qed.

(** "ACME_123_NF_0001.pdf". *)
Lemma campos_de_um_nome_witness :
  campos_do_nome (py "ACME" ++ py "_" ++ py "123" ++ py "_" ++ py "NF" ++ py "_" ++
                  py "0001" ++ py ".pdf") = (py "ACME", py "123", py "0001").
Proof.
  apply (proj2 campos_de_um_nome (py "ACME") (py "123") (py "NF") (py "0001"));
    vm_compute; intuition discriminate.
Defined.
